(** * Goal hierarchy, dashboard and profile-stats logic of the planner app

    A shallow embedding of the TypeScript services
    ([GoalService], [EventService], [DashboardService]) and of the
    PL/pgSQL triggers of the Supabase migrations.

    Modelling conventions:
    - progress values stored in the database ([DECIMAL(5,2)]) and progress
      values passed to the services are exact rationals [Q]; the
      client-side arithmetic of the parent-progress chain
      ([calculateParentProgress_js], [progress_changed]) is binary64
      arithmetic, written with the IEEE 754 specification [SpecFloat] of
      the Standard Library;
    - timestamps are [Z] milliseconds since the epoch, in local time;
    - a table of the database is a [list] of rows, in query order;
    - a call that throws (or a query that returns an error) yields [Failed]
      or [None]. *)

From Stdlib Require Import String List ZArith QArith Qround Qabs Lia Bool.
From Stdlib Require Import Sorting Permutation Lqa.
From Stdlib Require SpecFloat.
Import ListNotations.

Open Scope string_scope.
Open Scope Z_scope.

(* ------------------------------------------------------------------ *)
(** ** Data model ([src/types/goals.ts], the [goals] table) *)

Inductive GoalStatus := active | completed | paused | cancelled.

Definition GoalStatus_eqb (a b : GoalStatus) : bool :=
  match a, b with
  | active, active | completed, completed
  | paused, paused | cancelled, cancelled => true
  | _, _ => false
  end.

Lemma GoalStatus_eqb_eq a b : GoalStatus_eqb a b = true <-> a = b.
Proof. destruct a, b; simpl; split; congruence. Qed.

Record Goal := mkGoal {
  g_id : string;
  g_title : string;
  g_parent_id : option string;
  g_level : Z;
  g_progress : Q;
  g_status : GoalStatus;
  g_start_date : option Z;
  g_due_date : option Z;
  g_completed_at : option Z;
  g_category_id : option string;
  g_user_id : string
}.

(** The [goals] table, in the order of [getGoals]. *)
Definition GoalTable := list Goal.

Definition opt_string_eqb (a b : option string) : bool :=
  match a, b with
  | Some x, Some y => String.eqb x y
  | None, None => true
  | _, _ => false
  end.

(** [getGoal]: [.eq('id', id).single()]; a missing row is an error. *)
Definition getGoal (st : GoalTable) (id : string) : option Goal :=
  find (fun g => String.eqb (g_id g) id) st.

(** [getGoalChildren] = [getGoals({ parentId })]. *)
Definition getGoalChildren (st : GoalTable) (parentId : string) : list Goal :=
  filter (fun g => opt_string_eqb (g_parent_id g) (Some parentId)) st.

(* ------------------------------------------------------------------ *)
(** ** Numbers *)

Open Scope Q_scope.

(** [Math.round x] rounds to the nearest integer, halves upward. *)
Definition js_round (x : Q) : Q := inject_Z (Qfloor (x + (1#2))).

(** [Math.min(100, Math.max(0, p))] *)
Definition clamp_progress (p : Q) : Q :=
  let lo := if Qle_bool 0 p then p else 0 in
  if Qle_bool 100 lo then 100 else lo.

Definition sum_progress (gs : list Goal) : Q :=
  fold_left (fun sum child => sum + g_progress child) gs 0.

(* ------------------------------------------------------------------ *)
(** ** JavaScript numbers (binary64) *)

Definition double := SpecFloat.spec_float.
Definition prec64 : Z := 53%Z.
Definition emax64 : Z := 1024%Z.

(** The double nearest to a rational (ties to even): [parseFloat] of a
    [DECIMAL] value, or a number literal. *)
Definition Q2D (x : Q) : double :=
  match Qnum x with
  | Z0 => SpecFloat.S754_zero false
  | Zpos n =>
    let '(m, e, l) := SpecFloat.SFdiv_core_binary prec64 emax64 (Zpos n) 0 (Zpos (Qden x)) 0 in
    SpecFloat.binary_round_aux prec64 emax64 false m e l
  | Zneg n =>
    let '(m, e, l) := SpecFloat.SFdiv_core_binary prec64 emax64 (Zpos n) 0 (Zpos (Qden x)) 0 in
    SpecFloat.binary_round_aux prec64 emax64 true m e l
  end.

(** The number a double stands for. The infinities are read as
    [2^1024] and [-2^1024], beyond every finite double (they only reach
    [Math.min(100, Math.max(0, p))], which gives 100 and 0 for them, as
    it does for those values); NaN is read as 0 (the chain never sends
    it, its comparison with NaN being false). *)
Definition D2Q (x : double) : Q :=
  match x with
  | SpecFloat.S754_finite s m e =>
    let v := match e with
             | Zpos _ => inject_Z (Zpos m * 2 ^ e)
             | Z0 => inject_Z (Zpos m)
             | Zneg p => Qmake (Zpos m) (Pos.pow 2 p)
             end in
    if s then - v else v
  | SpecFloat.S754_infinity s => if s then - inject_Z (2 ^ 1024) else inject_Z (2 ^ 1024)
  | _ => 0
  end.

Definition dadd (x y : double) : double := SpecFloat.SFadd prec64 emax64 x y.
Definition dsub (x y : double) : double := SpecFloat.SFsub prec64 emax64 x y.
Definition dmul (x y : double) : double := SpecFloat.SFmul prec64 emax64 x y.
Definition ddiv (x y : double) : double := SpecFloat.SFdiv prec64 emax64 x y.

(** [Math.round]: the integer nearest to a finite double, halves upward;
    NaN and the infinities are returned as they are. *)
Definition Math_round (x : double) : double :=
  match x with
  | SpecFloat.S754_finite _ _ _ => Q2D (inject_Z (Qfloor (D2Q x + (1#2))))
  | _ => x
  end.

(* ------------------------------------------------------------------ *)
(** ** [GoalService.calculateParentProgress] *)

Definition is_relevant (child : Goal) : bool :=
  match g_status child with
  | active | completed => true
  | _ => false
  end.


(** [calculateParentProgress] in binary64: [child.progress] is
    [parseFloat] of the stored [DECIMAL], the sum starts from 0, the mean
    divides by the (exact) count, then
    [Math.round(averageProgress * 100) / 100]. *)
Definition calculateParentProgress_js (st : GoalTable) (parentId : string) : double :=
  let children := getGoalChildren st parentId in
  match children with
  | [] => Q2D 0
  | _ =>
    let relevantChildren := filter is_relevant children in
    match relevantChildren with
    | [] => Q2D 0
    | _ =>
      let totalProgress :=
        fold_left (fun sum child => dadd sum (Q2D (g_progress child))) relevantChildren (Q2D 0) in
      let averageProgress :=
        ddiv totalProgress (Q2D (inject_Z (Z.of_nat (length relevantChildren)))) in
      ddiv (Math_round (dmul averageProgress (Q2D 100))) (Q2D 100)
    end
  end.

(** [calculate_parent_goal_progress] of the SQL migration: [AVG(progress)]
    over the children whose status is ['active'], [COALESCE(.., 0)]. *)
Definition calculate_parent_goal_progress (st : GoalTable) (parent_goal_id : string) : Q :=
  let rows := filter (fun g => GoalStatus_eqb (g_status g) active)
                (getGoalChildren st parent_goal_id) in
  match rows with
  | [] => 0
  | _ => sum_progress rows / inject_Z (Z.of_nat (length rows))
  end.

(** The property as the specification words it: the arithmetic mean of
    the progress of the children in [active] or [completed] status, and
    0 when there is none. *)
Definition list_sum_Q (xs : list Q) : Q := fold_right Qplus 0 xs.

Definition eligible_children (st : GoalTable) (pid : string) : list Goal :=
  filter is_relevant (getGoalChildren st pid).

Definition spec_mean_progress (st : GoalTable) (pid : string) : Q :=
  match eligible_children st pid with
  | [] => 0
  | es => list_sum_Q (map g_progress es) / inject_Z (Z.of_nat (length es))
  end.

Close Scope Q_scope.

(* ------------------------------------------------------------------ *)
(** ** Outcomes of effectful calls *)

(** [Failed]: the call throws (a query error, or a [throw new Error]).
    [Diverges]: the recursion of the client code did not end within the
    fuel given. *)
Inductive Outcome (A : Type) : Type :=
| Done (a : A)
| Failed
| Diverges.
Arguments Done {A} a.
Arguments Failed {A}.
Arguments Diverges {A}.

Notation "'let*' x := e 'in' k" :=
  (match e with Some x => k | None => None end)
  (at level 200, x pattern, e at level 100, k at level 200).

(* ------------------------------------------------------------------ *)
(** ** The [goals] table: row writes and their triggers *)

(** The columns an [UPDATE goals SET ...] may assign. *)
Record GoalPatch := mkPatch {
  p_title : option string;
  p_parent_id : option (option string);
  p_level : option Z;
  p_progress : option Q;
  p_status : option GoalStatus;
  p_start_date : option (option Z);
  p_due_date : option (option Z);
  p_completed_at : option (option Z);
  p_category_id : option (option string)
}.

Definition empty_patch : GoalPatch :=
  mkPatch None None None None None None None None None.

Definition upd {A} (o : option A) (old : A) : A :=
  match o with Some v => v | None => old end.

Definition apply_patch (g : Goal) (p : GoalPatch) : Goal :=
  mkGoal (g_id g) (upd (p_title p) (g_title g)) (upd (p_parent_id p) (g_parent_id g))
    (upd (p_level p) (g_level g)) (upd (p_progress p) (g_progress g))
    (upd (p_status p) (g_status g)) (upd (p_start_date p) (g_start_date g))
    (upd (p_due_date p) (g_due_date g)) (upd (p_completed_at p) (g_completed_at g))
    (upd (p_category_id p) (g_category_id g)) (g_user_id g).

(** Assignment to a [DECIMAL(5,2)] column rounds to two decimals, halves
    away from zero. *)
Definition numeric_5_2 (x : Q) : Q :=
  if Qle_bool 0 x then inject_Z (Qfloor (x * 100 + (1#2))) / 100
  else - (inject_Z (Qfloor (- x * 100 + (1#2))) / 100).

Definition store_goal (g : Goal) : Goal :=
  mkGoal (g_id g) (g_title g) (g_parent_id g) (g_level g) (numeric_5_2 (g_progress g))
    (g_status g) (g_start_date g) (g_due_date g) (g_completed_at g)
    (g_category_id g) (g_user_id g).

(** The column constraints of the [goals] table: [VARCHAR(500)] title,
    [level] in 1..4, [progress] in 0..100, [valid_date_range],
    [no_self_reference] and the foreign key on [parent_id]. *)
Definition goal_row_ok (st : GoalTable) (g : Goal) : bool :=
  Nat.leb (String.length (g_title g)) 500
  && (1 <=? g_level g) && (g_level g <=? 4)
  && Qle_bool 0 (g_progress g) && Qle_bool (g_progress g) 100
  && match g_start_date g, g_due_date g with
     | Some s, Some d => s <=? d
     | _, _ => true
     end
  && negb (opt_string_eqb (g_parent_id g) (Some (g_id g)))
  && match g_parent_id g with
     | Some pid => match getGoal st pid with Some _ => true | None => false end
     | None => true
     end.

(** [validate_goal_hierarchy] (BEFORE INSERT OR UPDATE). When the parent
    row is missing, [parent_level] is NULL and the comparison does not
    raise (the foreign key rejects the row instead). *)
Definition validate_goal_hierarchy (st : GoalTable) (new : Goal) : bool :=
  match g_parent_id new with
  | None => g_level new =? 1
  | Some pid =>
    match getGoal st pid with
    | Some parent => g_level new =? g_level parent + 1
    | None => true
    end
  end.

Definition replace_goal (st : GoalTable) (new : Goal) : GoalTable :=
  map (fun g => if String.eqb (g_id g) (g_id new) then new else g) st.

(** The condition of [update_parent_goal_progress] (AFTER INSERT OR
    UPDATE): [OLD IS NULL OR NEW.progress != OLD.progress OR
    NEW.status != OLD.status], and a parent. *)
Definition parent_trigger_fires (old : option Goal) (new : Goal) : bool :=
  match g_parent_id new with
  | None => false
  | Some _ =>
    match old with
    | None => true
    | Some o => negb (Qeq_bool (g_progress new) (g_progress o))
                || negb (GoalStatus_eqb (g_status new) (g_status o))
    end
  end.

(** The [SET] list of the parent update in [update_parent_goal_progress]. *)
Definition parent_progress_patch (parent : Goal) (parent_progress : Q) (now : Z) : GoalPatch :=
  let new_status :=
    if Qeq_bool parent_progress 100 then completed
    else if GoalStatus_eqb (g_status parent) completed
            && negb (Qle_bool 100 parent_progress) then active
    else g_status parent in
  let new_completed_at :=
    if Qeq_bool parent_progress 100 && negb (match g_completed_at parent with
                                               | Some _ => true | None => false end)
    then Some now
    else if negb (Qle_bool 100 parent_progress) then None
    else g_completed_at parent in
  mkPatch None None None (Some parent_progress) (Some new_status)
    None None (Some new_completed_at) None.

(** [UPDATE goals SET <patch> WHERE id = <id>] with the triggers it fires;
    [id] is the primary key, so the update touches one row ([.single()]
    reports an error otherwise).
    The nested parent update of the AFTER trigger fires the triggers of
    the parent row in turn; [fuel] bounds that nesting (running out of it
    is the server's stack-depth error). [None] is an error; otherwise the
    new table and the updated row as returned by [.select().single()]. *)
Definition rows_with_id (st : GoalTable) (id : string) : list Goal :=
  filter (fun g => String.eqb (g_id g) id) st.

Fixpoint db_update_goal (fuel : nat) (now : Z) (st : GoalTable) (id : string)
    (patch : GoalPatch) : option (GoalTable * Goal) :=
  match fuel with
  | O => None
  | S f =>
    match rows_with_id st id with
    | [old] =>
      let new := store_goal (apply_patch old patch) in
      if validate_goal_hierarchy st new && goal_row_ok st new then
        let st1 := replace_goal st new in
        if parent_trigger_fires (Some old) new then
          match g_parent_id new with
          | None => Some (st1, new)
          | Some pid =>
            let parent_progress := calculate_parent_goal_progress st1 pid in
            match getGoal st1 pid with
            | None => Some (st1, new)
            | Some parent =>
              let* (st2, _) := db_update_goal f now st1 pid
                                 (parent_progress_patch parent parent_progress now) in
              Some (st2, new)
            end
          end
        else Some (st1, new)
      else None
    | _ => None
    end
  end.

(* ------------------------------------------------------------------ *)
(** ** [GoalService.updateGoal], [updateProgress], [updateParentProgressChain] *)

(** [UpdateGoalInput]; an absent field is [None]; for the nullable
    columns [Some None] is an explicit [null]. *)
Record UpdateGoalInput := mkUpdateGoalInput {
  ug_id : string;
  ug_title : option string;
  ug_progress : option Q;
  ug_status : option GoalStatus;
  ug_start_date : option (option Z);
  ug_due_date : option (option Z);
  ug_category_id : option (option string)
}.

(** The [goalData] object built by [updateGoal], including the
    auto-complete step
    [if (goalData.progress === 100 && goalData.status !== 'completed')]. *)
Definition updateGoal_data (now : Z) (input : UpdateGoalInput) : GoalPatch :=
  let progress := option_map clamp_progress (ug_progress input) in
  let base := mkPatch (ug_title input) None None progress (ug_status input)
                (ug_start_date input) (ug_due_date input) None (ug_category_id input) in
  let auto_complete :=
    match progress with
    | Some p => Qeq_bool p 100
                && negb (match ug_status input with
                         | Some s => GoalStatus_eqb s completed
                         | None => false end)
    | None => false
    end in
  if auto_complete then
    mkPatch (p_title base) None None (p_progress base) (Some completed)
      (p_start_date base) (p_due_date base) (Some (Some now)) (p_category_id base)
  else base.

Definition updateGoal (fuel : nat) (now : Z) (st : GoalTable) (input : UpdateGoalInput)
    : option (GoalTable * Goal) :=
  db_update_goal fuel now st (ug_id input) (updateGoal_data now input).

Definition progress_input (goalId : string) (progress : Q) (status : GoalStatus)
    : UpdateGoalInput :=
  mkUpdateGoalInput goalId None (Some progress) (Some status) None None None.

(** [updateProgress(goalId, progress)] *)
Definition updateProgress (fuel : nat) (now : Z) (st : GoalTable) (goalId : string)
    (progress : Q) : option (GoalTable * Goal) :=
  updateGoal fuel now st
    (progress_input goalId progress (if Qeq_bool progress 100 then completed else active)).

(** The status chosen for the parent in [updateParentProgressChain]:
    [newParentProgress === 100 ? 'completed' : parent.status ===
    'completed' && newParentProgress < 100 ? 'active' : parent.status]. *)
Definition chain_new_status (parent : Goal) (newParentProgress : double) : GoalStatus :=
  if SpecFloat.SFeqb newParentProgress (Q2D 100) then completed
  else if GoalStatus_eqb (g_status parent) completed
          && SpecFloat.SFltb newParentProgress (Q2D 100) then active
  else g_status parent.

(** [Math.abs(parent.progress - newParentProgress) > 0.01], with
    [parent.progress] the [parseFloat] of the stored value. *)
Definition progress_changed (stored : Q) (recomputed : double) : bool :=
  SpecFloat.SFltb (Q2D (1#100)) (SpecFloat.SFabs (dsub (Q2D stored) recomputed)).

(** [updateParentProgressChain(goalId)]. [fuel] bounds the number of
    recursive calls; [dbfuel] is the server's nesting bound of each
    update. The double [newParentProgress] reaches the database as the
    number it stands for ([D2Q]): it is the double nearest to n/100 for
    an integer n (or NaN or an infinity), whose JSON decimal is n/100, and
    the [DECIMAL(5,2)] column rounds both to n/100 alike.
    Besides the final table, the goals the chain itself issued an update
    for, in order, each with the table as it was when the chain visited
    it. *)
Fixpoint updateParentProgressChain (fuel dbfuel : nat) (now : Z) (st : GoalTable)
    (goalId : string) : Outcome (GoalTable * list (string * GoalTable)) :=
  match fuel with
  | O => Diverges
  | S f =>
    match getGoal st goalId with
    | None => Failed
    | Some goal =>
      match g_parent_id goal with
      | None => Done (st, [])
      | Some pid =>
        let newParentProgress := calculateParentProgress_js st pid in
        match getGoal st pid with
        | None => Failed
        | Some parent =>
          if progress_changed (g_progress parent) newParentProgress then
            match updateGoal dbfuel now st
                    (progress_input pid (D2Q newParentProgress)
                       (chain_new_status parent newParentProgress)) with
            | None => Failed
            | Some (st1, _) =>
              match updateParentProgressChain f dbfuel now st1 pid with
              | Done (st2, written) => Done (st2, (pid, st) :: written)
              | Failed => Failed
              | Diverges => Diverges
              end
            end
          else Done (st, [])
        end
      end
    end
  end.

(** [updateProgressWithParentCalculation(goalId, progress)] *)
Definition updateProgressWithParentCalculation (fuel dbfuel : nat) (now : Z)
    (st : GoalTable) (goalId : string) (progress : Q) : Outcome (GoalTable * Goal) :=
  match updateProgress dbfuel now st goalId progress with
  | None => Failed
  | Some (st1, updatedGoal) =>
    match updateParentProgressChain fuel dbfuel now st1 goalId with
    | Done (st2, _) => Done (st2, updatedGoal)
    | Failed => Failed
    | Diverges => Diverges
    end
  end.

(* ------------------------------------------------------------------ *)
(** ** [GoalService.moveGoal] and [updateDescendantLevels] *)

(** JavaScript truthiness of an optional id ([if (newParentId)]). *)
Definition truthy_id (o : option string) : option string :=
  match o with
  | Some s => if String.eqb s "" then None else Some s
  | None => None
  end.

Definition level_patch (newLevel : Z) : GoalPatch :=
  mkPatch None None (Some newLevel) None None None None None None.

(** [updateDescendantLevels(goalId, parentLevel)]: the children are read
    once, then handled one after the other. The result of the level
    update is not inspected ([await this.supabase...update(...)] without
    reading [error]), so a rejected update leaves the table as it was and
    the loop goes on. *)
Fixpoint updateDescendantLevels (fuel dbfuel : nat) (now : Z) (st : GoalTable)
    (goalId : string) (parentLevel : Z) : Outcome GoalTable :=
  match fuel with
  | O => Diverges
  | S f =>
    let fix loop (children : list Goal) (st : GoalTable) : Outcome GoalTable :=
      match children with
      | [] => Done st
      | child :: rest =>
        let newLevel := parentLevel + 1 in
        if newLevel <=? 4 then
          let st1 := match db_update_goal dbfuel now st (g_id child) (level_patch newLevel) with
                     | Some (st1, _) => st1
                     | None => st
                     end in
          match updateDescendantLevels f dbfuel now st1 (g_id child) newLevel with
          | Done st2 => loop rest st2
          | Failed => Failed
          | Diverges => Diverges
          end
        else loop rest st
      end in
    loop (getGoalChildren st goalId) st
  end.

Definition move_patch (newParentId : option string) (newLevel : Z) : GoalPatch :=
  mkPatch None (Some newParentId) (Some newLevel) None None None None None None.

(** [moveGoal(goalId, newParentId?)] *)
Definition moveGoal (fuel dbfuel : nat) (now : Z) (st : GoalTable) (goalId : string)
    (newParentId : option string) : Outcome (GoalTable * Goal) :=
  match getGoal st goalId with
  | None => Failed
  | Some _ =>
    let newLevel :=
      match truthy_id newParentId with
      | Some pid =>
        match getGoal st pid with
        | None => None
        | Some newParent => if 4 <=? g_level newParent then None else Some (g_level newParent + 1)
        end
      | None => Some 1
      end in
    match newLevel with
    | None => Failed
    | Some newLevel =>
      if 4 <? newLevel then Failed
      else
        match db_update_goal dbfuel now st goalId (move_patch (truthy_id newParentId) newLevel) with
        | None => Failed
        | Some (st1, moved) =>
          match updateDescendantLevels fuel dbfuel now st1 goalId newLevel with
          | Done st2 => Done (st2, moved)
          | Failed => Failed
          | Diverges => Diverges
          end
        end
    end
  end.

(** The level invariant of the data model: a root has level 1, a child
    has its parent's level plus one, no level exceeds 4. *)
Definition goal_level_ok (st : GoalTable) (g : Goal) : bool :=
  (g_level g <=? 4)
  && match g_parent_id g with
     | None => g_level g =? 1
     | Some pid =>
       match getGoal st pid with
       | Some parent => g_level g =? g_level parent + 1
       | None => false
       end
     end.

Definition level_invariant (st : GoalTable) : bool := forallb (goal_level_ok st) st.

(* ------------------------------------------------------------------ *)
(** ** [GoalService.createGoal] *)

Record CreateGoalInput := mkCreateGoalInput {
  cg_title : string;
  cg_parentId : option string;
  cg_level : Z;
  cg_startDate : option Z;
  cg_dueDate : option Z;
  cg_categoryId : option string
}.

(** [INSERT INTO goals ...] with its triggers: [validate_goal_hierarchy]
    before, the row constraints, a fresh primary key, and
    [update_parent_goal_progress] after (with [OLD] NULL). *)
Definition db_insert_goal (fuel : nat) (now : Z) (st : GoalTable) (new : Goal)
    : option (GoalTable * Goal) :=
  let new := store_goal new in
  if validate_goal_hierarchy st new && goal_row_ok st new
     && match rows_with_id st (g_id new) with [] => true | _ => false end then
    let st1 := (st ++ [new])%list in
    if parent_trigger_fires None new then
      match g_parent_id new with
      | None => Some (st1, new)
      | Some pid =>
        let parent_progress := calculate_parent_goal_progress st1 pid in
        match getGoal st1 pid with
        | None => Some (st1, new)
        | Some parent =>
          let* (st2, _) := db_update_goal fuel now st1 pid
                             (parent_progress_patch parent parent_progress now) in
          Some (st2, new)
        end
      end
    else Some (st1, new)
  else None.

(** The row [createGoal] sends: [progress] and [status] take their
    column defaults (0, ['active']); [newId] is the generated uuid. *)
Definition new_goal_row (newId userId : string) (input : CreateGoalInput) : Goal :=
  mkGoal newId (cg_title input) (cg_parentId input) (cg_level input) 0 active
    (cg_startDate input) (cg_dueDate input) None (cg_categoryId input) userId.

(** The checks [createGoal] makes before the insert; [None] when they
    throw. *)
Definition createGoal_checks (st : GoalTable) (input : CreateGoalInput) : bool :=
  match truthy_id (cg_parentId input) with
  | Some pid =>
    match getGoal st pid with
    | None => false
    | Some parent => negb (4 <=? g_level parent) && (cg_level input =? g_level parent + 1)
    end
  | None => cg_level input =? 1
  end.

Definition createGoal (fuel : nat) (now : Z) (st : GoalTable) (user : option string)
    (newId : string) (input : CreateGoalInput) : option (GoalTable * Goal) :=
  match user with
  | None => None
  | Some uid =>
    if createGoal_checks st input
    then db_insert_goal fuel now st (new_goal_row newId uid input)
    else None
  end.

(* ------------------------------------------------------------------ *)
(** ** Events ([src/types/calendar.ts], the [events] table) *)

Record Event := mkEvent {
  e_id : string;
  e_title : string;
  e_start_date : Z;
  e_end_date : Z;
  e_all_day : bool;
  e_category_id : option string;
  e_user_id : string
}.

(* ------------------------------------------------------------------ *)
(** ** Dates (date-fns) *)

Definition ms_per_day : Z := 86400000.
Definition ms_per_hour : Z := 3600000.

(** Local calendar day of a local timestamp. *)
Definition day_of (t : Z) : Z := t / ms_per_day.

(** [isToday(d)] and [isPast(d)] at the current time [now]. *)
Definition isToday (now t : Z) : bool := day_of t =? day_of now.
Definition isPast (now t : Z) : bool := t <? now.

(** [differenceInDays(left, right)]: the number of full days between the
    two dates, truncated towards zero. *)
Definition differenceInDays (left right : Z) : Z := Z.quot (left - right) ms_per_day.

(** [format(d, 'HH:mm')], as the minute of the day; the zero-padded
    strings compare like these numbers. *)
Definition minute_of_day (t : Z) : Z := (t mod ms_per_day) / 60000.

(* ------------------------------------------------------------------ *)
(** ** [Array.prototype.sort] with a comparator *)

(** Stable insertion sort: an element goes before the first element it
    does not compare greater than. For a consistent comparator
    ECMAScript's stable sort returns this very list. *)
Fixpoint insert_by {A} (cmp : A -> A -> Z) (x : A) (l : list A) : list A :=
  match l with
  | [] => [x]
  | y :: l' => if cmp x y <=? 0 then x :: l else y :: insert_by cmp x l'
  end.

Fixpoint js_sort {A} (cmp : A -> A -> Z) (l : list A) : list A :=
  match l with
  | [] => []
  | x :: l' => insert_by cmp x (js_sort cmp l')
  end.

(* ------------------------------------------------------------------ *)
(** ** [DashboardService.getOverdueItems] *)

Inductive Urgency := low | medium | high | critical.

(** [calculateUrgency] of [src/types/dashboard.ts] *)
Definition calculateUrgency (daysOverdue : Z) : Urgency :=
  if 7 <=? daysOverdue then critical
  else if 3 <=? daysOverdue then high
  else if 1 <=? daysOverdue then medium
  else low.

Definition urgencyOrder (u : Urgency) : Z :=
  match u with critical => 4 | high => 3 | medium => 2 | low => 1 end.

Inductive ItemType := goal_item | event_item.

Record OverdueItem := mkOverdueItem {
  oi_id : string;
  oi_type : ItemType;
  oi_dueDate : Z;
  oi_daysOverdue : Z;
  oi_urgency : Urgency
}.

(** [isOverdue] on a goal and on an event. *)
Definition isOverdueGoal (now : Z) (g : Goal) : bool :=
  match g_due_date g with
  | None => false
  | Some due => isPast now due && negb (GoalStatus_eqb (g_status g) completed)
  end.

Definition isOverdueEvent (now : Z) (e : Event) : bool := isPast now (e_end_date e).

Definition overdue_goal_item (now : Z) (g : Goal) : OverdueItem :=
  let due := match g_due_date g with Some d => d | None => 0 end in
  let daysOverdue := match g_due_date g with
                     | Some d => differenceInDays now d
                     | None => 0 end in
  mkOverdueItem (g_id g) goal_item due daysOverdue (calculateUrgency daysOverdue).

Definition overdue_event_item (now : Z) (e : Event) : OverdueItem :=
  let daysOverdue := differenceInDays now (e_end_date e) in
  mkOverdueItem (e_id e) event_item (e_end_date e) daysOverdue (calculateUrgency daysOverdue).

Definition overdue_cmp (a b : OverdueItem) : Z :=
  let urgencyDiff := urgencyOrder (oi_urgency b) - urgencyOrder (oi_urgency a) in
  if negb (urgencyDiff =? 0) then urgencyDiff
  else oi_daysOverdue b - oi_daysOverdue a.

Definition overdue_items_unsorted (now : Z) (goals : list Goal) (events : list Event)
    : list OverdueItem :=
  map (overdue_goal_item now) (filter (isOverdueGoal now) goals)
  ++ map (overdue_event_item now) (filter (isOverdueEvent now) events).

Definition getOverdueItems (now : Z) (goals : list Goal) (events : list Event)
    : list OverdueItem :=
  js_sort overdue_cmp (overdue_items_unsorted now goals events).

(* ------------------------------------------------------------------ *)
(** ** [DashboardService.getTodayTasks] *)

Record TodayTask := mkTodayTask {
  tt_id : string;
  tt_type : ItemType;
  tt_priority : Z;
  tt_completed : bool;
  tt_dueTime : option Z
}.

(** [Math.min(10, Math.max(1, priority))] *)
Definition clamp_priority (p : Z) : Z := Z.min 10 (Z.max 1 p).

Definition isDueToday (now : Z) (g : Goal) : bool :=
  match g_due_date g with
  | None => false
  | Some d => isToday now d
  end.

Definition calculateGoalPriority (now : Z) (goal : Goal) : Z :=
  let priority := 5 + g_level goal in
  let priority := if isDueToday now goal then priority + 2 else priority in
  let priority :=
    if negb (Qle_bool (g_progress goal) 80) then priority + 2
    else if negb (Qle_bool (g_progress goal) 60) then priority + 1
    else priority in
  clamp_priority priority.

(** [hoursUntilStart <= h] is [start - now <= h * 3600000]. *)
Definition calculateEventPriority (now : Z) (event : Event) : Z :=
  let untilStart := e_start_date event - now in
  let priority :=
    if untilStart <=? 1 * ms_per_hour then 5 + 3
    else if untilStart <=? 3 * ms_per_hour then 5 + 2
    else if untilStart <=? 6 * ms_per_hour then 5 + 1
    else 5 in
  let priority := if e_all_day event then priority - 1 else priority in
  clamp_priority priority.

Definition today_goal_filter (now : Z) (g : Goal) : bool :=
  (g_level g =? 4) && GoalStatus_eqb (g_status g) active
  && (isDueToday now g || match g_due_date g with None => true | Some _ => false end).

Definition today_event_filter (now : Z) (e : Event) : bool := isToday now (e_start_date e).

Definition goal_task (now : Z) (g : Goal) : TodayTask :=
  mkTodayTask (g_id g) goal_item (calculateGoalPriority now g)
    (GoalStatus_eqb (g_status g) completed) None.

Definition event_task (now : Z) (e : Event) : TodayTask :=
  mkTodayTask (e_id e) event_item (calculateEventPriority now e)
    (isPast now (e_end_date e))
    (if e_all_day e then None else Some (minute_of_day (e_start_date e))).

Definition today_cmp (a b : TodayTask) : Z :=
  if negb (tt_priority a =? tt_priority b) then tt_priority b - tt_priority a
  else match tt_dueTime a, tt_dueTime b with
       | Some x, Some y => match Z.compare x y with Lt => -1 | Eq => 0 | Gt => 1 end
       | Some _, None => -1
       | None, Some _ => 1
       | None, None => 0
       end.

Definition today_tasks_unsorted (now : Z) (goals : list Goal) (events : list Event)
    : list TodayTask :=
  map (goal_task now) (filter (today_goal_filter now) goals)
  ++ map (event_task now) (filter (today_event_filter now) events).

Definition getTodayTasks (now : Z) (goals : list Goal) (events : list Event)
    : list TodayTask :=
  js_sort today_cmp (today_tasks_unsorted now goals events).

(* ------------------------------------------------------------------ *)
(** ** [update_user_stats] (AFTER INSERT OR UPDATE OR DELETE on [goals]
    and on [events]) *)

(** The [stats] JSON document; [(stats->>'k')::INTEGER] is NULL, here
    [None], when the key is absent. *)
Record Stats := mkStats {
  totalGoals : option Z;
  completedGoals : option Z;
  totalEvents : option Z;
  completedEvents : option Z;
  currentStreak : option Z;
  longestStreak : option Z
}.

Record Profile := mkProfile {
  pr_user_id : string;
  pr_stats : Stats
}.

Inductive TgOp := tg_insert | tg_update | tg_delete.

Definition count_where {A} (p : A -> bool) (l : list A) : Z := Z.of_nat (length (filter p l)).

(** [old_user] / [new_user]: [OLD.user_id] and [NEW.user_id] of the row
    that fired the trigger. *)
Definition update_user_stats (op : TgOp) (old_user new_user : string)
    (goals : list Goal) (events : list Event) (profiles : list Profile) : list Profile :=
  let v_user_id := match op with tg_delete => old_user | _ => new_user end in
  let v_total_goals := count_where (fun g => String.eqb (g_user_id g) v_user_id) goals in
  let v_completed_goals :=
    count_where (fun g => String.eqb (g_user_id g) v_user_id
                          && GoalStatus_eqb (g_status g) completed) goals in
  let v_total_events := count_where (fun e => String.eqb (e_user_id e) v_user_id) events in
  map (fun pr =>
         if String.eqb (pr_user_id pr) v_user_id then
           mkProfile (pr_user_id pr)
             (mkStats (Some v_total_goals) (Some v_completed_goals) (Some v_total_events)
                (completedEvents (pr_stats pr)) (currentStreak (pr_stats pr))
                (longestStreak (pr_stats pr)))
         else pr) profiles.

(* ------------------------------------------------------------------ *)
(** ** [GoalService.getGoalAncestors] *)

(** The loop [while (currentGoal.parentId) { parent = getGoal(..);
    ancestors.unshift(parent); currentGoal = parent }]; [fuel] bounds
    the number of times the condition is evaluated. *)
Fixpoint ancestors_loop (fuel : nat) (st : GoalTable) (currentGoal : Goal)
    (ancestors : list Goal) : Outcome (list Goal) :=
  match fuel with
  | O => Diverges
  | S f =>
    match truthy_id (g_parent_id currentGoal) with
    | None => Done ancestors
    | Some pid =>
      match getGoal st pid with
      | None => Failed
      | Some parent => ancestors_loop f st parent (parent :: ancestors)
      end
    end
  end.

Definition getGoalAncestors (fuel : nat) (st : GoalTable) (id : string) : Outcome (list Goal) :=
  match getGoal st id with
  | None => Failed
  | Some currentGoal => ancestors_loop fuel st currentGoal []
  end.

(** A list of goals in which each goal is the parent of the next one. *)
Fixpoint parent_chain (l : list Goal) : bool :=
  match l with
  | a :: ((b :: _) as rest) => opt_string_eqb (g_parent_id b) (Some (g_id a)) && parent_chain rest
  | _ => true
  end.

(** Such a list that starts at a root. *)
Definition root_path (l : list Goal) : bool :=
  match l with
  | [] => false
  | a :: _ => match g_parent_id a with None => parent_chain l | Some _ => false end
  end.

(* ------------------------------------------------------------------ *)
(** ** [GoalService.buildGoalBranch] and [buildGoalTree] *)

(** [GoalWithChildren]: a goal with its built [children]. *)
#[warnings="-register-all"]
Inductive GoalTree := GNode (goal : Goal) (children : list GoalTree).

(** [Array.prototype.map] with a callee that may not return. *)
Fixpoint map_option {A B} (f : A -> option B) (l : list A) : option (list B) :=
  match l with
  | [] => Some []
  | x :: l' =>
    match f x with
    | None => None
    | Some y => option_map (cons y) (map_option f l')
    end
  end.

(** [buildGoalBranch(goal, allGoals)]: [None] when the recursion has not
    ended within [fuel] nested calls (on a cycle of parent references it
    never ends). *)
Fixpoint buildGoalBranch (fuel : nat) (goal : Goal) (allGoals : list Goal) : option GoalTree :=
  match fuel with
  | O => None
  | S f =>
    option_map (GNode goal)
      (map_option (fun child => buildGoalBranch f child allGoals)
         (filter (fun g => opt_string_eqb (g_parent_id g) (Some (g_id goal))) allGoals))
  end.

(** [buildGoalTree(goals)]. [goalMap] holds one node object per id (a
    later [set] for the same id replaces the node) and the nodes are
    shared, so a node is named here by its id: the state is the
    [children] array of every node, with the [rootGoals] array. The
    [goalNode.parent] back pointer is not modelled. *)
Definition tree_step (goalMap : list string) (s : (string -> list string) * list string)
    (goal : Goal) : (string -> list string) * list string :=
  let (children, rootGoals) := s in
  match truthy_id (g_parent_id goal) with
  | Some pid =>
    if existsb (String.eqb pid) goalMap
    then ((fun k => if String.eqb k pid then (children k ++ [g_id goal])%list else children k),
          rootGoals)
    else (children, rootGoals)
  | None => (children, (rootGoals ++ [g_id goal])%list)
  end.

Definition buildGoalTree (goals : list Goal) : (string -> list string) * list string :=
  fold_left (tree_step (map g_id goals)) goals ((fun _ => []), []).

(* ------------------------------------------------------------------ *)
(** ** [GoalService.deleteGoal] *)

Definition in_ids (ids : list string) (x : string) : bool := existsb (String.eqb x) ids.

(** The rows removed by [DELETE FROM goals WHERE id = ..]: the foreign key
    [parent_id .. ON DELETE CASCADE] removes the rows that reference a
    removed row, in turn. Each round adds the rows whose parent is
    removed; [fuel] bounds the rounds. *)
Fixpoint delete_closure (fuel : nat) (st : GoalTable) (deleted : list string) : list string :=
  match fuel with
  | O => deleted
  | S f =>
    let more := map g_id (filter (fun g => match g_parent_id g with
                                           | Some p => in_ids deleted p && negb (in_ids deleted (g_id g))
                                           | None => false
                                           end) st) in
    match more with
    | [] => deleted
    | _ => delete_closure f st (deleted ++ more)%list
    end
  end.

(** [deleteGoal(id)]. No trigger of [goals] but [update_user_stats] (which
    writes [profiles] only) runs on DELETE, so the remaining rows are
    left as they were. *)
Definition deleteGoal (st : GoalTable) (id : string) : GoalTable :=
  let deleted := delete_closure (length st) st [id] in
  filter (fun g => negb (in_ids deleted (g_id g))) st.

(* ------------------------------------------------------------------ *)
(** ** [DashboardService.calculateStatistics] *)

Record DashboardStatistics := mkDashboardStatistics {
  ds_totalGoals : Z;
  ds_completedGoals : Z;
  ds_activeGoals : Z;
  ds_overallProgress : Q;
  ds_totalEvents : Z;
  ds_completedEvents : Z;
  ds_overdueItems : Z;
  ds_todayTasksCount : Z
}.

Definition calculateStatistics (now : Z) (goals : list Goal) (events : list Event)
    : DashboardStatistics :=
  let completedGoals := count_where (fun g => GoalStatus_eqb (g_status g) completed) goals in
  let activeGoals := count_where (fun g => GoalStatus_eqb (g_status g) active) goals in
  let totalProgress := sum_progress goals in
  let overallProgress :=
    if (0 <? length goals)%nat
    then (totalProgress / inject_Z (Z.of_nat (length goals)))%Q else 0%Q in
  let todayGoals := filter (fun g => (g_level g =? 4) && isDueToday now g) goals in
  let todayEvents := filter (fun e => isToday now (e_start_date e)) events in
  let todayTasksCount := Z.of_nat (length todayGoals) + Z.of_nat (length todayEvents) in
  let completedEvents := count_where (fun e => isPast now (e_end_date e)) events in
  let overdueGoals := filter (isOverdueGoal now) goals in
  let overdueEvents := filter (isOverdueEvent now) events in
  let overdueItems := Z.of_nat (length overdueGoals) + Z.of_nat (length overdueEvents) in
  mkDashboardStatistics (Z.of_nat (length goals)) completedGoals activeGoals overallProgress
    (Z.of_nat (length events)) completedEvents overdueItems todayTasksCount.

(* ------------------------------------------------------------------ *)
(** ** [GoalService.getGoalStatistics] *)

Record GoalsByStatus := mkGoalsByStatus {
  bs_active : Z;
  bs_completed : Z;
  bs_paused : Z;
  bs_cancelled : Z
}.

(** [goalsByLevel] is a JavaScript object: [obj[k]++] on a key it does not
    have adds the key with [NaN] (here [None]), and [NaN] stays [NaN]. *)
Definition bump_level (m : list (Z * option Z)) (k : Z) : list (Z * option Z) :=
  if existsb (fun e => fst e =? k) m
  then map (fun e => if fst e =? k then (fst e, option_map Z.succ (snd e)) else e) m
  else (m ++ [(k, None)])%list.

Definition bump_status (s : GoalsByStatus) (st : GoalStatus) : GoalsByStatus :=
  match st with
  | active => mkGoalsByStatus (bs_active s + 1) (bs_completed s) (bs_paused s) (bs_cancelled s)
  | completed => mkGoalsByStatus (bs_active s) (bs_completed s + 1) (bs_paused s) (bs_cancelled s)
  | paused => mkGoalsByStatus (bs_active s) (bs_completed s) (bs_paused s + 1) (bs_cancelled s)
  | cancelled => mkGoalsByStatus (bs_active s) (bs_completed s) (bs_paused s) (bs_cancelled s + 1)
  end.

Record GoalStatistics := mkGoalStatistics {
  gs_totalGoals : Z;
  gs_completedGoals : Z;
  gs_activeGoals : Z;
  gs_overallProgress : Q;
  gs_goalsByLevel : list (Z * option Z);
  gs_goalsByStatus : GoalsByStatus
}.

(** [getGoalStatistics()] over the rows [getGoals()] returned. *)
Definition getGoalStatistics (goals : list Goal) : GoalStatistics :=
  let '(byLevel, byStatus, totalProgress) :=
    fold_left (fun '(l, s, t) goal =>
                 (bump_level l (g_level goal), bump_status s (g_status goal),
                  (t + g_progress goal)%Q))
      goals ([(1, Some 0); (2, Some 0); (3, Some 0); (4, Some 0)],
             mkGoalsByStatus 0 0 0 0, 0%Q) in
  mkGoalStatistics (Z.of_nat (length goals))
    (count_where (fun g => GoalStatus_eqb (g_status g) completed) goals)
    (count_where (fun g => GoalStatus_eqb (g_status g) active) goals)
    (if (0 <? length goals)%nat
     then (totalProgress / inject_Z (Z.of_nat (length goals)))%Q else 0%Q)
    byLevel byStatus.

(* ------------------------------------------------------------------ *)
(** ** [DashboardService.createProgressChartData] *)




(* ------------------------------------------------------------------ *)
(** ** [create_profile_for_user] (AFTER INSERT on [auth.users]) *)

(** The column default of [profiles.stats]. *)
Definition default_stats : Stats :=
  mkStats (Some 0) (Some 0) (Some 0) (Some 0) (Some 0) (Some 0).

(** [INSERT INTO profiles (user_id) VALUES (NEW.id)
    ON CONFLICT (user_id) DO NOTHING]. *)
Definition create_profile_for_user (profiles : list Profile) (new_id : string) : list Profile :=
  if existsb (fun pr => String.eqb (pr_user_id pr) new_id) profiles then profiles
  else (profiles ++ [mkProfile new_id default_stats])%list.

(* ------------------------------------------------------------------ *)
(** ** Category distribution ([DashboardService.createCategoryDistribution]) *)

(** The fields of a [Category] that the distribution reads. *)
Record Category := mkCategory {
  c_id : string;
  c_name : string;
  c_color : string
}.

Record CategoryDistributionData := mkCategoryDistributionData {
  cd_name : string;
  cd_goals : Z;
  cd_events : Z;
  cd_color : string
}.

(** One entry per category, in the order of [categories]; the counts are
    [filter(x => x.categoryId === category.id).length], so an unset
    [categoryId] matches no category. *)
Definition createCategoryDistribution (goals : list Goal) (events : list Event)
    (categories : list Category) : list CategoryDistributionData :=
  map (fun category =>
         mkCategoryDistributionData (c_name category)
           (count_where (fun g => opt_string_eqb (g_category_id g) (Some (c_id category))) goals)
           (count_where (fun e => opt_string_eqb (e_category_id e) (Some (c_id category))) events)
           (c_color category))
      categories.

(* ------------------------------------------------------------------ *)
(** ** Concrete tables used below *)

Definition goal_row (id : string) (parent : option string) (level : Z) (progress : Q)
    (status : GoalStatus) : Goal :=
  mkGoal id "goal" parent level progress status None None None None "user-1".


(** A parent with a completed child at 100 and an active child at 0; the
    parent's stored progress (0) is the storage layer's active-only mean. *)
Definition completion_table : GoalTable :=
  [goal_row "P" None 1 0 active; goal_row "A" (Some "P") 2 100 completed;
   goal_row "B" (Some "P") 2 0 active].

(** Grandparent [G], parent [P], children [L] (completed, 100) and [L2]
    (active, 50); the stored values are the storage layer's means. *)
Definition chain_table : GoalTable :=
  [goal_row "G" None 1 50 active; goal_row "P" (Some "G") 2 50 active;
   goal_row "L" (Some "P") 3 100 completed; goal_row "L2" (Some "P") 3 50 active].

(** Two branches [A > B > C > D] and [X > Y]. *)
Definition move_table : GoalTable :=
  [goal_row "A" None 1 0 active; goal_row "B" (Some "A") 2 0 active;
   goal_row "C" (Some "B") 3 0 active; goal_row "D" (Some "C") 4 0 active;
   goal_row "X" None 1 0 active; goal_row "Y" (Some "X") 2 0 active].

(** One paused goal. *)
Definition paused_table : GoalTable := [goal_row "L" None 1 0 paused].

(** A profile whose snapshot says 5 completed events and a 3-day streak,
    with no goal and no event left. *)
Definition stale_profiles : list Profile :=
  [mkProfile "user-1" (mkStats (Some 1) (Some 0) (Some 1) (Some 5) (Some 3) (Some 4))].

(** The order the overdue list is meant to have: urgency bucket first,
    then days overdue, both descending. *)
Definition overdue_before (a b : OverdueItem) : Prop :=
  urgencyOrder (oi_urgency b) < urgencyOrder (oi_urgency a)
  \/ (urgencyOrder (oi_urgency a) = urgencyOrder (oi_urgency b)
      /\ oi_daysOverdue b <= oi_daysOverdue a).

(** Priority descending. *)
Definition priority_before (a b : TodayTask) : Prop := tt_priority b <= tt_priority a.

(** The parent reference of row [id], if the row exists. *)
Definition parent_link (st : GoalTable) (id : string) : option (option string) :=
  option_map g_parent_id (getGoal st id).

(** The tree edges of a table, row by row. *)
Definition links (st : GoalTable) : list (string * option string) :=
  map (fun g => (g_id g, g_parent_id g)) st.

(** The ids of the ancestors of [id], parent first, when the parent
    references reach a root within [n] steps: a finite, acyclic ancestry
    whose rows all exist. *)
Fixpoint ancestor_path (n : nat) (st : GoalTable) (id : string) : option (list string) :=
  match n with
  | O => None
  | S m =>
    match parent_link st id with
    | None => None
    | Some None => Some []
    | Some (Some pid) => option_map (cons pid) (ancestor_path m st pid)
    end
  end.

(** Two rows with the same id, the same status and the same progress (as
    a number). *)
Definition same_progress_status (a b : Goal) : Prop :=
  g_id a = g_id b /\ g_status a = g_status b /\ (g_progress a == g_progress b)%Q.

(** The full order of the today list: priority descending; at equal
    priority the timed tasks first, by time of day ascending. *)
Definition today_before (a b : TodayTask) : Prop :=
  tt_priority b < tt_priority a
  \/ (tt_priority a = tt_priority b
      /\ match tt_dueTime a, tt_dueTime b with
         | Some x, Some y => x <= y
         | Some _, None => True
         | None, Some _ => False
         | None, None => True
         end).

(* ================================================================== *)
(** * Properties *)

Open Scope Q_scope.

Lemma Qle_bool_false (x y : Q) : Qle_bool x y = false -> y < x.
Proof.
  intros H. destruct (Qlt_le_dec y x) as [Hlt|Hle]; [exact Hlt |].
  apply Qle_bool_iff in Hle. congruence.
Qed.

Lemma Qeq_bool_false (x y : Q) : Qeq_bool x y = false -> ~ x == y.
Proof. intros H E. apply Qeq_bool_iff in E. congruence. Qed.

(** Turn the boolean comparisons in the context into propositions. *)
Ltac bool_to_Q :=
  repeat match goal with
  | H : Qle_bool _ _ = true |- _ => apply Qle_bool_iff in H
  | H : Qle_bool _ _ = false |- _ => apply Qle_bool_false in H
  | H : Qeq_bool _ _ = true |- _ => apply Qeq_bool_iff in H
  | H : Qeq_bool _ _ = false |- _ => apply Qeq_bool_false in H
  end.

#[export] Instance js_round_comp : Proper (Qeq ==> Qeq) js_round.
Proof. intros x y H. unfold js_round. rewrite H. reflexivity. Qed.


Lemma js_round_bounds (x : Q) : x - (1#2) < js_round x <= x + (1#2).
Proof.
  unfold js_round. pose proof (Qfloor_le (x + (1#2))) as H1.
  pose proof (Qlt_floor (x + (1#2))) as H2.
  rewrite inject_Z_plus in H2. change (inject_Z 1) with 1 in H2.
  set (f := inject_Z (Qfloor (x + (1#2)))) in *. split; lra.
Qed.


(** C1 (code_bug). The storage-layer recomputation
    [calculate_parent_goal_progress], run by the trigger
    [update_parent_goal_progress] on every progress or status change of a
    child, averages the ['active'] children only. For [P] in
    [completion_table] (a completed child at 100, an active child at 0)
    it gives 0, while the mean over the active and completed children is
    50, which the client-side [calculateParentProgress] also computes.
    Setting the active child to 40 makes the trigger store 40 in [P],
    where that mean is 70. *)
Theorem calculate_parent_goal_progress_skips_completed :
  Qeq_bool (calculate_parent_goal_progress completion_table "P") 0 = true /\
  Qeq_bool (spec_mean_progress completion_table "P") 50 = true /\
  Qeq_bool (D2Q (calculateParentProgress_js completion_table "P")) 50 = true /\
  match updateProgress 10 0 completion_table "B" 40 with
  | Some (st', _) =>
    match getGoal st' "P" with
    | Some p => Qeq_bool (g_progress p) 40 && Qeq_bool (spec_mean_progress st' "P") 70
    | None => false
    end
  | None => false
  end = true.
Proof. vm_compute. repeat split. Qed.

(** The storage-layer path: the [SET] list of [update_parent_goal_progress]
    completes the parent and stamps [completed_at] only when it is NULL at
    100, and reverts a completed parent to [active] with [completed_at]
    cleared below 100. *)
Lemma parent_progress_patch_completion (parent : Goal) (pp : Q) (now : Z) :
  (pp == 100 ->
     p_status (parent_progress_patch parent pp now) = Some completed /\
     p_completed_at (parent_progress_patch parent pp now) =
       Some (match g_completed_at parent with Some t => Some t | None => Some now end)) /\
  (g_status parent = completed -> pp < 100 ->
     p_status (parent_progress_patch parent pp now) = Some active /\
     p_completed_at (parent_progress_patch parent pp now) = Some None).
Proof.
  unfold parent_progress_patch; simpl. split.
  - intros H. apply Qeq_bool_iff in H. rewrite H.
    destruct (g_completed_at parent); simpl; split; try reflexivity.
    apply Qeq_bool_iff in H. rewrite H. reflexivity.
  - intros Hs Hlt. rewrite Hs.
    assert (E1 : Qeq_bool pp 100 = false).
    { destruct (Qeq_bool pp 100) eqn:E; [apply Qeq_bool_iff in E; lra | reflexivity]. }
    assert (E2 : Qle_bool 100 pp = false).
    { destruct (Qle_bool 100 pp) eqn:E; [apply Qle_bool_iff in E; lra | reflexivity]. }
    rewrite E1, E2. simpl. split; reflexivity.
Qed.

(** The client path: an update that names the status ['completed'] never
    writes [completed_at] (the auto-complete step only runs when the
    status is not ['completed']). *)
Lemma updateGoal_data_completed_no_stamp (now : Z) (id : string) (p : Q) :
  p_completed_at (updateGoal_data now (progress_input id p completed)) = None.
Proof.
  unfold updateGoal_data, progress_input; simpl.
  destruct (Qeq_bool (clamp_progress p) 100); reflexivity.
Qed.

(** C2 (code_bug). Completing the last active child [B] of [P] (the other
    child [A] being completed at 100) through
    [updateProgressWithParentCalculation]: the chain sets [P] to 100 and
    ['completed'], but [P]'s completion time stays NULL. *)
Theorem updateProgressWithParentCalculation_parent_not_stamped :
  match updateProgressWithParentCalculation 10 10 1000 completion_table "B" 100 with
  | Done (st', _) => option_map (fun p => (Qeq_bool (g_progress p) 100, g_status p, g_completed_at p))
                       (getGoal st' "P")
  | _ => None
  end = Some (true, completed, None).
Proof. vm_compute. reflexivity. Qed.

Lemma db_update_goal_row (fuel : nat) (now : Z) (st : GoalTable) (id : string)
    (patch : GoalPatch) (st' : GoalTable) (g' : Goal) :
  db_update_goal fuel now st id patch = Some (st', g') ->
  exists old, rows_with_id st id = [old] /\ g' = store_goal (apply_patch old patch).
Proof.
  destruct fuel as [|f]; [discriminate |]. intros H. cbn [db_update_goal] in H.
  destruct (rows_with_id st id) as [|old [|o2 rest]]; try discriminate.
  exists old; split; [reflexivity |]. cbv zeta in H.
  set (new := store_goal (apply_patch old patch)) in *.
  destruct (validate_goal_hierarchy st new && goal_row_ok st new); [| discriminate].
  destruct (parent_trigger_fires (Some old) new); [| congruence].
  destruct (g_parent_id new) as [pid|]; [| congruence].
  destruct (getGoal (replace_goal st new) pid) as [par|]; [| congruence].
  destruct (db_update_goal f _ _ _ _) as [[st2 x]|]; congruence.
Qed.

(** C10 (amended). Whenever [updateProgress goalId p] returns the goal,
    its status is ['completed'] when p >= 100 and ['active'] otherwise,
    whatever the status was before (a paused or cancelled goal becomes
    active below 100); a value p above 100 is clamped: the goal comes
    back with progress 100. *)
Theorem updateProgress_status (fuel : nat) (now : Z) (st : GoalTable) (goalId : string)
    (progress : Q) (st' : GoalTable) (g' : Goal) :
  updateProgress fuel now st goalId progress = Some (st', g') ->
  g_status g' = (if Qle_bool 100 progress then completed else active) /\
  (100 <= progress -> g_progress g' == 100).
Proof.
  unfold updateProgress, updateGoal. intros H.
  apply db_update_goal_row in H as [old [_ ->]].
  split.
  - unfold updateGoal_data, progress_input, clamp_progress. simpl.
    destruct (Qeq_bool progress 100) eqn:E1, (Qle_bool 0 progress) eqn:E2; simpl;
      destruct (Qle_bool 100 progress) eqn:E3; simpl; rewrite ?andb_false_r, ?E1;
      try reflexivity; bool_to_Q; lra.
  - intros Hp.
    assert (Hc : clamp_progress progress = 100).
    { unfold clamp_progress.
      assert (E2 : Qle_bool 0 progress = true) by (apply Qle_bool_iff; lra).
      rewrite E2. assert (E3 : Qle_bool 100 progress = true) by (apply Qle_bool_iff; exact Hp).
      rewrite E3. reflexivity. }
    unfold updateGoal_data, progress_input. cbn [option_map ug_progress ug_status].
    rewrite Hc. cbv zeta.
    destruct (Qeq_bool 100 100 && _); reflexivity.
Qed.

(** Witness for C10: a paused goal set to 40 comes back active. *)
Lemma updateProgress_status_witness :
  match updateProgress 5 0 paused_table "L" 40 with
  | Some (_, g') => g_status g' = active
  | None => False
  end.
Proof.
  destruct (updateProgress 5 0 paused_table "L" 40) as [[st' g']|] eqn:E.
  - rewrite (proj1 (updateProgress_status _ _ _ _ _ _ _ E)). reflexivity.
  - vm_compute in E. discriminate.
Defined.

(** C10 (counterexample). [updateProgress] with 150 (not 100) on a paused
    goal returns it ['completed']: the progress is clamped to 100 and the
    auto-complete step fires. *)
Lemma updateProgress_150_completes :
  match updateProgress 5 0 paused_table "L" 150 with
  | Some (_, g') => g_status g' = completed
  | None => False
  end.
Proof. vm_compute. reflexivity. Qed.

Close Scope Q_scope.

(** C9 (amended). After [update_user_stats] fires for a row of user [v]
    ([OLD.user_id] on DELETE, [NEW.user_id] otherwise), every profile of
    [v] holds the recounted totals of goals, completed goals and events of
    [v], while [completedEvents], [currentStreak] and [longestStreak] are
    copied from the previous snapshot; other profiles are untouched. *)
Theorem update_user_stats_writes (op : TgOp) (ou nu : string) (goals : list Goal)
    (events : list Event) (profiles : list Profile) (i : nat) (pr : Profile) :
  nth_error profiles i = Some pr ->
  let v := match op with tg_delete => ou | _ => nu end in
  exists pr', nth_error (update_user_stats op ou nu goals events profiles) i = Some pr' /\
    (pr_user_id pr = v ->
       pr_user_id pr' = v /\
       totalGoals (pr_stats pr') =
         Some (Z.of_nat (length (filter (fun g => String.eqb (g_user_id g) v) goals))) /\
       completedGoals (pr_stats pr') =
         Some (Z.of_nat (length (filter (fun g => String.eqb (g_user_id g) v
                                           && GoalStatus_eqb (g_status g) completed) goals))) /\
       totalEvents (pr_stats pr') =
         Some (Z.of_nat (length (filter (fun e => String.eqb (e_user_id e) v) events))) /\
       completedEvents (pr_stats pr') = completedEvents (pr_stats pr) /\
       currentStreak (pr_stats pr') = currentStreak (pr_stats pr) /\
       longestStreak (pr_stats pr') = longestStreak (pr_stats pr)) /\
    (pr_user_id pr <> v -> pr' = pr).
Proof.
  intros H v. unfold update_user_stats. rewrite nth_error_map, H. simpl.
  eexists; split; [reflexivity |]. fold v.
  destruct (String.eqb_spec (pr_user_id pr) v) as [E|E].
  - split; [intros _; repeat split; assumption | intros N; contradiction].
  - split; [intros X; contradiction | reflexivity].
Qed.

(** Witness for C9: the single stale profile of [user-1]. *)
Lemma update_user_stats_writes_witness :
  exists pr', nth_error (update_user_stats tg_delete "user-1" "user-1" [] [] stale_profiles) 0
                = Some pr' /\ totalEvents (pr_stats pr') = Some 0.
Proof.
  destruct (update_user_stats_writes tg_delete "user-1" "user-1" [] [] stale_profiles 0
              (hd (mkProfile "" (mkStats None None None None None None)) stale_profiles)
              eq_refl) as [pr' [E [Hv _]]].
  exists pr'. split; [exact E |]. apply Hv. reflexivity.
Defined.

(** C9 (counterexample). With no goal and no event left, the snapshot the
    trigger writes still says 5 completed events (more than the 0 events
    it counted) and a 3-day current streak: those fields are not
    recomputed. *)
Lemma update_user_stats_keeps_stale_counters :
  match update_user_stats tg_delete "user-1" "user-1" [] [] stale_profiles with
  | [pr] => totalEvents (pr_stats pr) = Some 0 /\ completedEvents (pr_stats pr) = Some 5
            /\ currentStreak (pr_stats pr) = Some 3
  | _ => False
  end.
Proof. vm_compute. repeat split. Qed.

(** C5 (amended). For an authenticated user, [createGoal] fails (and
    inserts nothing) when the hierarchy rule is violated or the given
    parent does not exist; when the rule holds, the outcome is the
    storage layer's insert, which can fail for other reasons: in
    particular a due date before the start date is refused. *)
Theorem createGoal_hierarchy_gate (fuel : nat) (now : Z) (st : GoalTable) (uid newId : string)
    (input : CreateGoalInput) :
  (forall pid parent, truthy_id (cg_parentId input) = Some pid -> getGoal st pid = Some parent ->
     (4 <= g_level parent \/ cg_level input <> g_level parent + 1) ->
     createGoal fuel now st (Some uid) newId input = None) /\
  (forall pid, truthy_id (cg_parentId input) = Some pid -> getGoal st pid = None ->
     createGoal fuel now st (Some uid) newId input = None) /\
  (truthy_id (cg_parentId input) = None -> cg_level input <> 1 ->
     createGoal fuel now st (Some uid) newId input = None) /\
  (createGoal_checks st input = true ->
     createGoal fuel now st (Some uid) newId input
     = db_insert_goal fuel now st (new_goal_row newId uid input)) /\
  (forall s d, cg_startDate input = Some s -> cg_dueDate input = Some d -> d < s ->
     createGoal fuel now st (Some uid) newId input = None).
Proof.
  unfold createGoal, createGoal_checks.
  repeat split.
  - intros pid parent Hp Hg Hv. rewrite Hp, Hg.
    destruct Hv as [Hv|Hv].
    + apply Z.leb_le in Hv. rewrite Hv. reflexivity.
    + apply Z.eqb_neq in Hv. rewrite Hv, andb_false_r. reflexivity.
  - intros pid Hp Hg. rewrite Hp, Hg. reflexivity.
  - intros Hp Hl. rewrite Hp. apply Z.eqb_neq in Hl. rewrite Hl. reflexivity.
  - intros Hc. rewrite Hc. reflexivity.
  - intros s d Hs Hd Hlt.
    destruct (match truthy_id (cg_parentId input) with
              | Some pid => _ | None => _ end); [| reflexivity].
    unfold db_insert_goal, goal_row_ok, new_goal_row, store_goal. simpl.
    rewrite Hs, Hd. apply Z.leb_gt in Hlt. rewrite Hlt.
    rewrite !andb_false_r. simpl. reflexivity.
Qed.

(** Witness for C5: a child requested under the level-4 goal [D]. *)
Lemma createGoal_hierarchy_gate_witness :
  createGoal 5 0 move_table (Some "user-1") "N" (mkCreateGoalInput "goal" (Some "D") 5 None None None)
  = None.
Proof.
  destruct (createGoal_hierarchy_gate 5 0 move_table "user-1" "N"
              (mkCreateGoalInput "goal" (Some "D") 5 None None None)) as [H1 _].
  apply (H1 "D" (goal_row "D" (Some "C") 4 0 active)); [reflexivity | reflexivity |].
  left. simpl. lia.
Defined.

(** C5 (counterexample). Under the level-1 goal [A], a level-2 goal (the
    hierarchy rule holds) whose due date precedes its start date: the
    client checks pass and [createGoal] still fails. *)
Lemma createGoal_fails_with_valid_hierarchy :
  createGoal_checks move_table (mkCreateGoalInput "goal" (Some "A") 2 (Some 10) (Some 5) None) = true
  /\ createGoal 5 0 move_table (Some "user-1") "N"
       (mkCreateGoalInput "goal" (Some "A") 2 (Some 10) (Some 5) None) = None.
Proof. split; vm_compute; reflexivity. Qed.


(* ------------------------------------------------------------------ *)
(** ** The comparator sort *)

Section JsSort.
Context {A : Type} (cmp : A -> A -> Z) (R : A -> A -> Prop).
Hypothesis cmp_le : forall x y, cmp x y <= 0 -> R x y.
Hypothesis cmp_gt : forall x y, 0 < cmp x y -> R y x.

Lemma insert_by_perm (x : A) (l : list A) : Permutation (insert_by cmp x l) (x :: l).
Proof.
  induction l as [|y l IH]; simpl; [reflexivity |].
  destruct (cmp x y <=? 0); [reflexivity |].
  rewrite IH. apply perm_swap.
Qed.

Lemma js_sort_perm (l : list A) : Permutation (js_sort cmp l) l.
Proof.
  induction l as [|x l IH]; simpl; [reflexivity |].
  rewrite insert_by_perm. now apply perm_skip.
Qed.

Lemma insert_by_hd (x y : A) (l : list A) :
  R y x -> HdRel R y l -> HdRel R y (insert_by cmp x l).
Proof.
  intros Hyx Hl. destruct l as [|z l]; simpl.
  - constructor; assumption.
  - destruct (cmp x z <=? 0); constructor; [assumption |].
    inversion Hl; assumption.
Qed.

Lemma insert_by_sorted (x : A) (l : list A) :
  Sorted R l -> Sorted R (insert_by cmp x l).
Proof.
  induction 1 as [|y l Hs IH Hhd]; simpl.
  - repeat constructor.
  - destruct (cmp x y <=? 0) eqn:E.
    + apply Z.leb_le in E. constructor; [constructor; assumption |].
      constructor. apply cmp_le. exact E.
    + apply Z.leb_gt in E. constructor; [exact IH |].
      apply insert_by_hd; [apply cmp_gt; exact E | exact Hhd].
Qed.

Lemma js_sort_sorted (l : list A) : Sorted R (js_sort cmp l).
Proof.
  induction l as [|x l IH]; simpl; [constructor |].
  apply insert_by_sorted. exact IH.
Qed.
End JsSort.

Lemma calculateUrgency_buckets (d : Z) :
  (d <= 0 -> calculateUrgency d = low) /\
  (1 <= d <= 2 -> calculateUrgency d = medium) /\
  (3 <= d <= 6 -> calculateUrgency d = high) /\
  (7 <= d -> calculateUrgency d = critical).
Proof.
  unfold calculateUrgency.
  destruct (7 <=? d) eqn:E7, (3 <=? d) eqn:E3, (1 <=? d) eqn:E1;
    rewrite ?Z.leb_le, ?Z.leb_gt in *; repeat split; intros; try reflexivity; lia.
Qed.

Lemma differenceInDays_nonneg (now d : Z) : d < now -> 0 <= differenceInDays now d.
Proof.
  intros H. unfold differenceInDays, ms_per_day. apply Z.quot_pos; lia.
Qed.

(** C6 (amended). The overdue list holds exactly the goals with a due date
    in the past that are not completed and the events whose end is in the
    past; [daysOverdue] is the number of full days elapsed since the
    deadline, so an item past its deadline by less than a day is listed
    with 0 days and urgency [low]; 1-2 days are [medium], 3-6 [high],
    7 or more [critical]; the list is sorted by urgency bucket, then by
    days overdue, both descending. *)
Theorem getOverdueItems_spec (now : Z) (goals : list Goal) (events : list Event) :
  Permutation (getOverdueItems now goals events) (overdue_items_unsorted now goals events) /\
  Sorted overdue_before (getOverdueItems now goals events) /\
  (forall it, In it (getOverdueItems now goals events) ->
     ((exists g d, In g goals /\ g_due_date g = Some d /\ isPast now d = true
                   /\ g_status g <> completed /\ it = overdue_goal_item now g
                   /\ oi_daysOverdue it = differenceInDays now d)
      \/ (exists e, In e events /\ isPast now (e_end_date e) = true
                   /\ it = overdue_event_item now e
                   /\ oi_daysOverdue it = differenceInDays now (e_end_date e)))
     /\ 0 <= oi_daysOverdue it
     /\ oi_urgency it = calculateUrgency (oi_daysOverdue it)).
Proof.
  split; [apply js_sort_perm |]. split.
  - apply js_sort_sorted; unfold overdue_cmp, overdue_before; intros x y H;
      destruct (Z.eqb_spec (urgencyOrder (oi_urgency y) - urgencyOrder (oi_urgency x)) 0);
      simpl in H; lia.
  - intros it Hin.
    apply (Permutation_in _ (js_sort_perm overdue_cmp _)) in Hin.
    unfold overdue_items_unsorted in Hin. apply in_app_or in Hin as [Hin|Hin];
      apply in_map_iff in Hin as [x [<- Hx]]; apply filter_In in Hx as [Hx Ho].
    + unfold isOverdueGoal in Ho. destruct (g_due_date x) as [d|] eqn:Hd; [| discriminate].
      apply andb_true_iff in Ho as [Hp Hs].
      assert (Hdays : oi_daysOverdue (overdue_goal_item now x) = differenceInDays now d)
        by (unfold overdue_goal_item; rewrite Hd; reflexivity).
      split; [left; exists x, d; repeat split; auto |].
      * intros E. rewrite E in Hs. discriminate.
      * rewrite Hdays. split; [apply differenceInDays_nonneg; apply Z.ltb_lt; exact Hp |].
        unfold overdue_goal_item. rewrite Hd. reflexivity.
    + split; [right; exists x; repeat split; auto |].
      split; [apply differenceInDays_nonneg; apply Z.ltb_lt; exact Ho | reflexivity].
Qed.

(** C6 (counterexample). A goal due an hour ago, on the current day, is
    listed with 0 days overdue and urgency [low]. *)
Lemma getOverdueItems_lists_zero_days :
  isToday 100000000 96400000 = true /\ isPast 100000000 96400000 = true /\
  getOverdueItems 100000000
    [mkGoal "g" "goal" None 4 0 active None (Some 96400000) None None "user-1"] []
  = [mkOverdueItem "g" goal_item 96400000 0 low].
Proof. repeat split; vm_compute; reflexivity. Qed.

(** C7 (amended). The today list holds exactly the active level-4 goals
    that are due today or have no due date, and the events starting
    today, each scored by [calculateGoalPriority] / [calculateEventPriority]
    (a value in 1..10), and it is sorted by priority, descending. *)
Theorem getTodayTasks_spec (now : Z) (goals : list Goal) (events : list Event) :
  Permutation (getTodayTasks now goals events) (today_tasks_unsorted now goals events) /\
  Sorted priority_before (getTodayTasks now goals events) /\
  (forall t, In t (getTodayTasks now goals events) <->
     (exists g, In g goals /\ g_level g = 4 /\ g_status g = active
                /\ (isDueToday now g = true \/ g_due_date g = None)
                /\ t = goal_task now g /\ tt_priority t = calculateGoalPriority now g)
     \/ (exists e, In e events /\ isToday now (e_start_date e) = true
                /\ t = event_task now e /\ tt_priority t = calculateEventPriority now e)) /\
  (forall t, In t (getTodayTasks now goals events) -> 1 <= tt_priority t <= 10).
Proof.
  assert (Hin : forall t, In t (getTodayTasks now goals events) <->
                          In t (today_tasks_unsorted now goals events)).
  { intros t. split; apply Permutation_in;
      [| symmetry]; apply js_sort_perm. }
  split; [apply js_sort_perm |]. split.
  - apply js_sort_sorted; unfold today_cmp, priority_before; intros x y H;
      destruct (Z.eqb_spec (tt_priority x) (tt_priority y)); simpl in H; try lia.
  - assert (Hchar : forall t, In t (getTodayTasks now goals events) <->
     (exists g, In g goals /\ g_level g = 4 /\ g_status g = active
                /\ (isDueToday now g = true \/ g_due_date g = None)
                /\ t = goal_task now g /\ tt_priority t = calculateGoalPriority now g)
     \/ (exists e, In e events /\ isToday now (e_start_date e) = true
                /\ t = event_task now e /\ tt_priority t = calculateEventPriority now e)).
    { intros t. rewrite Hin. unfold today_tasks_unsorted. rewrite in_app_iff, !in_map_iff.
      split.
      - intros [[g [<- Hg]]|[e [<- He]]]; apply filter_In in Hg as [Hg Hf] || apply filter_In in He as [He Hf].
        + left. exists g. unfold today_goal_filter in Hf.
          apply andb_true_iff in Hf as [Hf Hd]. apply andb_true_iff in Hf as [Hl Hs].
          apply Z.eqb_eq in Hl. apply GoalStatus_eqb_eq in Hs.
          repeat split; auto.
          apply orb_true_iff in Hd as [Hd|Hd]; [left; exact Hd | right].
          destruct (g_due_date g); [discriminate | reflexivity].
        + right. exists e. repeat split; auto.
      - intros [[g [Hg [Hl [Hs [Hd [-> _]]]]]]|[e [He [Ht [-> _]]]]].
        + left. exists g. split; [reflexivity |]. apply filter_In. split; [exact Hg |].
          unfold today_goal_filter. rewrite Hl, Hs. simpl.
          destruct Hd as [Hd|Hd]; rewrite Hd; [reflexivity | apply orb_true_r].
        + right. exists e. split; [reflexivity |]. apply filter_In. split; assumption. }
    split; [exact Hchar |].
    intros t Ht. apply Hchar in Ht as [[g [_ [_ [_ [_ [-> _]]]]]]|[e [_ [_ [-> _]]]]]; simpl.
    + unfold calculateGoalPriority, clamp_priority. lia.
    + unfold calculateEventPriority, clamp_priority. lia.
Qed.

(** C7 (counterexample). An active level-4 goal with no due date is in
    the today list although no goal is due today. *)
Lemma getTodayTasks_includes_undated_goal :
  let g := mkGoal "g" "goal" None 4 0 active None None None None "user-1" in
  isDueToday 0 g = false /\ In (goal_task 0 g) (getTodayTasks 0 [g] []).
Proof. simpl. split; [reflexivity | left; reflexivity]. Qed.

(** C4 (code bug). Moving [B] (level 2, with descendants [C] at level 3
    and [D] at level 4) under [Y] (level 2) succeeds, but
    [updateDescendantLevels] skips [D], whose new level would be 5: [C]
    becomes level 4 and [D] stays level 4 under it, so the level
    invariant, which held before, no longer holds. *)
Theorem moveGoal_breaks_level_invariant :
  level_invariant move_table = true /\
  match moveGoal 10 10 0 move_table "B" (Some "Y") with
  | Done (st', _) =>
    level_invariant st' = false
    /\ option_map g_level (getGoal st' "B") = Some 3
    /\ option_map g_level (getGoal st' "C") = Some 4
    /\ option_map (fun g => (g_parent_id g, g_level g)) (getGoal st' "D") = Some (Some "C", 4)
  | _ => False
  end.
Proof. split; vm_compute; repeat split; reflexivity. Qed.

Lemma links_parent_link (st1 st : GoalTable) (id : string) :
  links st1 = links st -> parent_link st1 id = parent_link st id.
Proof.
  revert st. induction st1 as [|a st1 IH]; intros [|g st] H; try discriminate; [reflexivity |].
  injection H as Hid Hpar Hrest. unfold parent_link, getGoal in *. simpl.
  rewrite Hid. destruct (String.eqb (g_id g) id); simpl; [congruence | apply IH; exact Hrest].
Qed.

Lemma ancestor_path_links (n : nat) (st1 st : GoalTable) (id : string) :
  links st1 = links st -> ancestor_path n st1 id = ancestor_path n st id.
Proof.
  intros H. revert id. induction n as [|m IH]; intros id; [reflexivity |].
  simpl. rewrite (links_parent_link _ _ id H).
  destruct (parent_link st id) as [[pid|]|]; [rewrite IH | |]; reflexivity.
Qed.

Lemma ancestor_path_row (n : nat) (st : GoalTable) (id : string) (path : list string) :
  ancestor_path n st id = Some path -> exists g, getGoal st id = Some g.
Proof.
  destruct n as [|m]; [discriminate |]. simpl. unfold parent_link.
  destruct (getGoal st id) as [g|]; [eauto | discriminate].
Qed.

Lemma replace_goal_links (st : GoalTable) (new : Goal) :
  (forall g, In g st -> g_id g = g_id new -> g_parent_id g = g_parent_id new) ->
  links (replace_goal st new) = links st.
Proof.
  induction st as [|g st IH]; intros H; [reflexivity |]. simpl.
  destruct (String.eqb_spec (g_id g) (g_id new)) as [E|E]; simpl.
  - rewrite (H g (or_introl eq_refl) E), E. f_equal. apply IH. intros; apply H; simpl; auto.
  - f_equal. apply IH. intros; apply H; simpl; auto.
Qed.

(** A row update that does not assign [parent_id], with all the parent
    updates its trigger cascades into, leaves the tree edges alone. *)
Lemma db_update_goal_links (fuel : nat) (now : Z) (st : GoalTable) (id : string)
    (patch : GoalPatch) (st' : GoalTable) (g' : Goal) :
  p_parent_id patch = None ->
  db_update_goal fuel now st id patch = Some (st', g') -> links st' = links st.
Proof.
  revert st id patch st' g'. induction fuel as [|f IH]; intros st id patch st' g' Hp H;
    [discriminate |].
  cbn [db_update_goal] in H.
  destruct (rows_with_id st id) as [|old [|o2 rest]] eqn:Hr; try discriminate.
  cbv zeta in H. set (new := store_goal (apply_patch old patch)) in *.
  assert (Hl : links (replace_goal st new) = links st).
  { apply replace_goal_links. intros g Hin Hid.
    assert (Hold : In old (rows_with_id st id)) by (rewrite Hr; left; reflexivity).
    unfold rows_with_id in Hold. apply filter_In in Hold as [_ Hold].
    apply String.eqb_eq in Hold.
    assert (Hg : In g (rows_with_id st id)).
    { apply filter_In. split; [exact Hin |]. apply String.eqb_eq.
      rewrite Hid, <- Hold. reflexivity. }
    rewrite Hr in Hg. destruct Hg as [<-|[]].
    subst new. simpl. rewrite Hp. reflexivity. }
  destruct (validate_goal_hierarchy st new && goal_row_ok st new); [| discriminate].
  destruct (parent_trigger_fires (Some old) new); [| injection H as <- _; exact Hl].
  destruct (g_parent_id new) as [pid|]; [| injection H as <- _; exact Hl].
  destruct (getGoal (replace_goal st new) pid) as [par|]; [| injection H as <- _; exact Hl].
  destruct (db_update_goal f _ _ _ _) as [[st2 x]|] eqn:E; [| discriminate].
  injection H as <- _. rewrite (IH _ _ _ _ _ (eq_refl : p_parent_id (parent_progress_patch _ _ _) = None) E). exact Hl.
Qed.

Lemma updateGoal_data_parent (now : Z) (input : UpdateGoalInput) :
  p_parent_id (updateGoal_data now input) = None.
Proof.
  unfold updateGoal_data. cbv zeta.
  match goal with |- context [if ?c then _ else _] => destruct c end; reflexivity.
Qed.

(** C3 (amended). When the ancestry of [goalId] is finite and acyclic
    (its ancestors, parent first, are [path]), [updateParentProgressChain]
    ends (it may still fail on a query error). It issues updates for a
    prefix of [path], in order; each ancestor it updates had, when the
    chain visited it, a stored progress more than 0.01 away from its
    recomputed progress (compared in binary64, as the code does). It
    stops at a root or at the first ancestor whose stored progress is
    within 0.01 of its recomputed progress at that moment, and issues no
    update for that ancestor or those above it. Those rows may still
    have been rewritten by the storage-layer trigger fired by the chain's
    own writes. The first visit is in the initial table; a chain that
    writes nothing leaves the table unchanged. *)
Theorem updateParentProgressChain_stops (n dbfuel : nat) (now : Z) (st : GoalTable)
    (goalId : string) (path : list string) :
  ancestor_path n st goalId = Some path ->
  updateParentProgressChain n dbfuel now st goalId <> Diverges /\
  forall st' written,
    updateParentProgressChain n dbfuel now st goalId = Done (st', written) ->
    Forall (fun v => exists ga, getGoal (snd v) (fst v) = Some ga
              /\ progress_changed (g_progress ga) (calculateParentProgress_js (snd v) (fst v)) = true)
      written /\
    match written with [] => st' = st | v :: _ => snd v = st end /\
    exists rest, path = (map fst written ++ rest)%list /\
      match rest with
      | [] => True
      | a :: _ => exists ga, getGoal st' a = Some ga
                  /\ progress_changed (g_progress ga) (calculateParentProgress_js st' a) = false
      end.
Proof.
  revert st goalId path. induction n as [|m IH]; intros st goalId path Hpath; [discriminate |].
  cbn [ancestor_path] in Hpath. cbn [updateParentProgressChain].
  unfold parent_link in Hpath. destruct (getGoal st goalId) as [goal|]; [| discriminate].
  simpl in Hpath. destruct (g_parent_id goal) as [pid|].
  - destruct (ancestor_path m st pid) as [p'|] eqn:Hp; [| discriminate].
    injection Hpath as <-.
    destruct (ancestor_path_row _ _ _ _ Hp) as [parent Hpar]. rewrite Hpar.
    destruct (progress_changed (g_progress parent) (calculateParentProgress_js st pid)) eqn:Hc.
    + destruct (updateGoal dbfuel now st _) as [[st1 u]|] eqn:Hu;
        [| split; [discriminate | intros; discriminate]].
      unfold updateGoal in Hu.
      apply db_update_goal_links in Hu; [| apply updateGoal_data_parent].
      rewrite <- (ancestor_path_links _ _ _ _ Hu) in Hp.
      destruct (IH st1 pid p' Hp) as [Hnd Hdone].
      destruct (updateParentProgressChain m dbfuel now st1 pid) as [[st2 w]| |];
        [| split; [discriminate | intros; discriminate] | contradiction Hnd; reflexivity].
      split; [discriminate |]. intros st' written Heq. injection Heq as <- <-.
      destruct (Hdone st2 w eq_refl) as [Hw [_ [rest [Hr Hrest]]]].
      split; [constructor; [exists parent; split; assumption | exact Hw] |].
      split; [reflexivity |].
      exists rest. split; [simpl; rewrite Hr; reflexivity | exact Hrest].
    + split; [discriminate |]. intros st' written Heq. injection Heq as <- <-.
      split; [constructor |]. split; [reflexivity |].
      exists (pid :: p'). split; [reflexivity |]. exists parent. split; assumption.
  - injection Hpath as <-. split; [discriminate |]. intros st' written Heq.
    injection Heq as <- <-. split; [constructor |]. split; [reflexivity |].
    exists []. split; reflexivity.
Qed.

(** Witness for C3: from the leaf [L] of [chain_table], whose ancestors
    are [P] and [G], the chain ends. *)
Lemma updateParentProgressChain_stops_witness :
  ancestor_path 3 chain_table "L" = Some ["P"; "G"] /\
  updateParentProgressChain 3 10 0 chain_table "L" <> Diverges.
Proof.
  split; [vm_compute; reflexivity |].
  apply (proj1 (updateParentProgressChain_stops 3 10 0 chain_table "L" ["P"; "G"]
                  ltac:(vm_compute; reflexivity))).
Defined.

(** C3 (counterexample). From [L] in [chain_table], the chain writes [P]
    only and stops at [G], whose stored progress matches its recomputed
    progress; yet [G] is not left unchanged: the storage trigger fired by
    the write to [P] moved it from 50 to 75. *)
Lemma updateParentProgressChain_ancestor_rewritten :
  match updateParentProgressChain 3 10 0 chain_table "L" with
  | Done (st', written) =>
    map fst written = ["P"] /\
    match getGoal chain_table "G", getGoal st' "G" with
    | Some g0, Some g1 =>
      Qeq_bool (g_progress g0) 50 && Qeq_bool (g_progress g1) 75
      && negb (progress_changed (g_progress g1) (calculateParentProgress_js st' "G")) = true
    | _, _ => False
    end
  | _ => False
  end.
Proof. vm_compute. split; reflexivity. Qed.

(** The binary64 comparison of the chain is not the exact one: a stored
    0.5 against a recomputed 0.49 counts as a change of more than 0.01
    ([Math.abs(0.5 - 0.49)] is [0.010000000000000009]). *)
Lemma progress_changed_binary64 :
  progress_changed (1#2) (Q2D (49#100)) = true
  /\ Qle_bool (Qabs ((1#2) - (49#100))) (1#100) = true.
Proof. vm_compute. split; reflexivity. Qed.

(* ================================================================== *)
(** * Further properties of the services *)

(** ** Ancestors and branches under the level invariant *)

Lemma getGoal_In (st : GoalTable) (id : string) (g : Goal) :
  getGoal st id = Some g -> In g st /\ g_id g = id.
Proof.
  unfold getGoal. intros H. apply find_some in H as [H1 H2].
  apply String.eqb_eq in H2. auto.
Qed.

Lemma getGoal_NoDup (st : GoalTable) (g : Goal) :
  NoDup (map g_id st) -> In g st -> getGoal st (g_id g) = Some g.
Proof.
  induction st as [|h st IH]; intros Hnd Hin; [destruct Hin |].
  simpl in Hnd. inversion Hnd as [|? ? Hnotin Hnd']; subst.
  unfold getGoal; simpl. destruct Hin as [<-|Hin].
  - rewrite String.eqb_refl. reflexivity.
  - destruct (String.eqb_spec (g_id h) (g_id g)) as [E|E].
    + exfalso. apply Hnotin. rewrite E. apply in_map. exact Hin.
    + apply IH; assumption.
Qed.

Lemma goal_level_ok_in (st : GoalTable) (g : Goal) :
  level_invariant st = true -> In g st -> goal_level_ok st g = true.
Proof. intros H Hin. unfold level_invariant in H. rewrite forallb_forall in H. auto. Qed.

Lemma count_lt_mono (st : GoalTable) (x y : Z) : x <= y ->
  (length (filter (fun h => Z.ltb (g_level h) x) st) <= length (filter (fun h => Z.ltb (g_level h) y) st))%nat.
Proof.
  intros Hxy. induction st as [|h st IH]; simpl; [lia |].
  destruct (g_level h <? x) eqn:E1, (g_level h <? y) eqn:E2; simpl;
    rewrite ?Z.ltb_lt, ?Z.ltb_ge in *; lia.
Qed.

Lemma count_lt_strict (st : GoalTable) (p : Goal) (y : Z) : In p st -> g_level p < y ->
  (length (filter (fun h => Z.ltb (g_level h) (g_level p)) st)
   < length (filter (fun h => Z.ltb (g_level h) y) st))%nat.
Proof.
  intros Hin Hy. induction st as [|h st IH]; [destruct Hin |].
  destruct Hin as [->|Hin].
  - simpl. rewrite Z.ltb_irrefl.
    assert (E : (g_level p <? y) = true) by (apply Z.ltb_lt; lia). rewrite E. simpl.
    pose proof (count_lt_mono st (g_level p) y ltac:(lia)). lia.
  - simpl. specialize (IH Hin).
    destruct (g_level h <? g_level p) eqn:E1, (g_level h <? y) eqn:E2; simpl;
      rewrite ?Z.ltb_lt, ?Z.ltb_ge in E1, E2; lia.
Qed.

(** Under the level invariant every level is at least 1 (a parent has a
    smaller level, and the parent references end at a root). *)
Lemma level_pos (st : GoalTable) :
  level_invariant st = true -> forall g, In g st -> 1 <= g_level g.
Proof.
  intros Hinv.
  assert (H : forall n g, In g st ->
            (length (filter (fun h => Z.ltb (g_level h) (g_level g)) st) <= n)%nat -> 1 <= g_level g).
  { induction n as [|m IH]; intros g Hin Hc;
      pose proof (goal_level_ok_in st g Hinv Hin) as Hok; unfold goal_level_ok in Hok;
      apply andb_true_iff in Hok as [_ Hok];
      (destruct (g_parent_id g) as [pid|];
       [ destruct (getGoal st pid) as [p|] eqn:Hp; [| discriminate];
         apply Z.eqb_eq in Hok; destruct (getGoal_In _ _ _ Hp) as [Hpin _];
         pose proof (count_lt_strict st p (g_level g) Hpin ltac:(lia))
       | apply Z.eqb_eq in Hok; lia ]).
    - lia.
    - specialize (IH p Hpin ltac:(lia)). lia. }
  intros g Hin. exact (H _ g Hin (le_n _)).
Qed.

Lemma parent_chain_snoc (l : list Goal) (p g : Goal) :
  parent_chain (l ++ [p]) = true -> opt_string_eqb (g_parent_id g) (Some (g_id p)) = true ->
  parent_chain (l ++ [p; g]) = true.
Proof.
  intros H Hg. induction l as [|a l IH].
  - simpl. rewrite Hg. reflexivity.
  - destruct l as [|b l].
    + simpl in *. apply andb_true_iff in H as [H1 _]. rewrite H1, Hg. reflexivity.
    + change (parent_chain (a :: b :: l ++ [p]) = true) in H.
      change (parent_chain (a :: b :: l ++ [p; g]) = true).
      cbn [parent_chain] in H |- *. apply andb_true_iff in H as [H1 H2].
      rewrite H1. apply IH. exact H2.
Qed.

Lemma root_path_snoc (l : list Goal) (p g : Goal) :
  root_path (l ++ [p]) = true -> opt_string_eqb (g_parent_id g) (Some (g_id p)) = true ->
  root_path (l ++ [p; g]) = true.
Proof.
  intros H Hg. destruct l as [|a l]; simpl in *.
  - destruct (g_parent_id p); [discriminate |]. rewrite Hg. reflexivity.
  - destruct (g_parent_id a); [discriminate |].
    exact (parent_chain_snoc (a :: l) p g H Hg).
Qed.

Lemma ancestors_loop_spec (st : GoalTable) :
  level_invariant st = true -> Forall (fun h => g_id h <> "") st ->
  forall n g acc, In g st -> g_level g <= Z.of_nat n ->
  exists L, ancestors_loop n st g acc = Done (L ++ acc)%list /\
    map g_level L = map Z.of_nat (seq 1 (Z.to_nat (g_level g) - 1)) /\
    root_path (L ++ [g])%list = true.
Proof.
  intros Hinv Hids. induction n as [|m IH]; intros g acc Hin Hle.
  - pose proof (level_pos st Hinv g Hin). lia.
  - pose proof (level_pos st Hinv g Hin) as Hpos.
    pose proof (goal_level_ok_in st g Hinv Hin) as Hok. unfold goal_level_ok in Hok.
    apply andb_true_iff in Hok as [_ Hok]. cbn [ancestors_loop].
    destruct (g_parent_id g) as [pid|] eqn:Hpar.
    + destruct (getGoal st pid) as [p|] eqn:Hp; [| discriminate]. apply Z.eqb_eq in Hok.
      destruct (getGoal_In _ _ _ Hp) as [Hpin Hpid].
      assert (Hne : pid <> "").
      { rewrite <- Hpid. exact (proj1 (Forall_forall _ _) Hids p Hpin). }
      assert (Ht : truthy_id (Some pid) = Some pid).
      { unfold truthy_id. destruct (String.eqb_spec pid ""); [contradiction | reflexivity]. }
      rewrite Ht, Hp.
      pose proof (level_pos st Hinv p Hpin) as Hppos.
      destruct (IH p (p :: acc) Hpin ltac:(lia)) as [L [HL [Hlev Hroot]]].
      exists (L ++ [p])%list. split; [rewrite HL, <- app_assoc; reflexivity |]. split.
      * rewrite map_app, Hlev.
        replace (Z.to_nat (g_level g) - 1)%nat with (S (Z.to_nat (g_level p) - 1)) by lia.
        rewrite seq_S, map_app. simpl. f_equal. f_equal. lia.
      * rewrite <- app_assoc. apply root_path_snoc; [exact Hroot |].
        rewrite Hpar, Hpid. simpl. apply String.eqb_refl.
    + exists []. apply Z.eqb_eq in Hok. rewrite Hok. simpl. rewrite Hpar.
      repeat split; reflexivity.
Qed.

Lemma map_option_total {A B} (f : A -> option B) (l : list A) :
  (forall x, In x l -> f x <> None) -> map_option f l <> None.
Proof.
  induction l as [|x l IH]; intros H; simpl; [discriminate |].
  destruct (f x) eqn:E; [| exfalso; exact (H x (or_introl eq_refl) E)].
  destruct (map_option f l) eqn:E2; simpl; [discriminate |].
  exfalso. apply IH; [intros y Hy; apply H; right; exact Hy | reflexivity].
Qed.

Lemma opt_string_eqb_Some (o : option string) (s : string) :
  opt_string_eqb o (Some s) = true -> o = Some s.
Proof.
  destruct o; simpl; [intros H; apply String.eqb_eq in H; congruence | discriminate].
Qed.

(** X1. In a table that keeps the level invariant and has no empty id,
    [getGoalAncestors] on a goal of level n returns, within n rounds of
    its loop, the n-1 ancestors ordered root first: their levels are
    1, ..., n-1, the first is a root, each is the parent of the next and
    the last is the goal's parent. *)
Theorem getGoalAncestors_root_path (st : GoalTable) (id : string) (g : Goal) :
  level_invariant st = true -> Forall (fun h => g_id h <> "") st -> getGoal st id = Some g ->
  exists ancestors,
    getGoalAncestors (Z.to_nat (g_level g)) st id = Done ancestors /\
    map g_level ancestors = map Z.of_nat (seq 1 (Z.to_nat (g_level g) - 1)) /\
    root_path (ancestors ++ [g])%list = true.
Proof.
  intros Hinv Hids Hg. destruct (getGoal_In _ _ _ Hg) as [Hin _].
  pose proof (level_pos st Hinv g Hin).
  destruct (ancestors_loop_spec st Hinv Hids (Z.to_nat (g_level g)) g [] Hin ltac:(lia))
    as [L [HL R]].
  exists L. unfold getGoalAncestors. rewrite Hg, HL, app_nil_r. split; [reflexivity | exact R].
Qed.

(** Witness for X1: the ancestors of [D] (level 4) in [move_table]. *)
Lemma getGoalAncestors_root_path_witness :
  exists ancestors, getGoalAncestors 4 move_table "D" = Done ancestors
                    /\ map g_level ancestors = [1; 2; 3].
Proof.
  destruct (getGoalAncestors_root_path move_table "D" (goal_row "D" (Some "C") 4 0 active)
              ltac:(vm_compute; reflexivity)
              ltac:(repeat constructor; cbv; discriminate)
              ltac:(vm_compute; reflexivity)) as [a [H1 [H2 _]]].
  exists a. split; [exact H1 | exact H2].
Defined.

(** X2. In a table that keeps the level invariant and has unique ids,
    [buildGoalBranch] on any of its goals ends: its recursion is at most
    5 - level deep. *)
Theorem buildGoalBranch_terminates (st : GoalTable) (g : Goal) :
  level_invariant st = true -> NoDup (map g_id st) -> In g st ->
  buildGoalBranch (Z.to_nat (5 - g_level g)) g st <> None.
Proof.
  intros Hinv Hnd.
  assert (H : forall n h, In h st -> 4 - g_level h < Z.of_nat n -> buildGoalBranch n h st <> None).
  { induction n as [|m IH]; intros h Hin Hlt.
    - pose proof (goal_level_ok_in st h Hinv Hin) as Hok. unfold goal_level_ok in Hok.
      apply andb_true_iff in Hok as [Hok _]. apply Z.leb_le in Hok. lia.
    - cbn [buildGoalBranch]. intros E.
      destruct (map_option _ _) eqn:E2; [discriminate |].
      revert E2. apply map_option_total. intros c Hc.
      apply filter_In in Hc as [Hc Hpar]. apply opt_string_eqb_Some in Hpar.
      pose proof (goal_level_ok_in st c Hinv Hc) as Hok. unfold goal_level_ok in Hok.
      rewrite Hpar, (getGoal_NoDup st h Hnd Hin) in Hok.
      apply andb_true_iff in Hok as [_ Hok]. apply Z.eqb_eq in Hok.
      apply IH; [exact Hc | lia]. }
  intros Hin. pose proof (goal_level_ok_in st g Hinv Hin) as Hok. unfold goal_level_ok in Hok.
  apply andb_true_iff in Hok as [Hok _]. apply Z.leb_le in Hok.
  apply H; [exact Hin | lia].
Qed.

(** Witness for X2: the branch of [A] in [move_table]. *)
Lemma buildGoalBranch_terminates_witness :
  buildGoalBranch 4 (goal_row "A" None 1 0 active) move_table <> None.
Proof.
  exact (buildGoalBranch_terminates move_table (goal_row "A" None 1 0 active)
           ltac:(vm_compute; reflexivity)
           ltac:(repeat constructor; cbv; intuition discriminate)
           ltac:(left; reflexivity)).
Defined.

(** ** The goal tree *)

Lemma tree_fold (keys : list string) (l : list Goal) :
  forall (c : string -> list string) (r : list string),
  (forall k, fst (fold_left (tree_step keys) l (c, r)) k =
     (c k ++ map g_id (filter (fun g => match truthy_id (g_parent_id g) with
                                        | Some pid => String.eqb k pid && in_ids keys pid
                                        | None => false end) l))%list) /\
  snd (fold_left (tree_step keys) l (c, r)) =
    (r ++ map g_id (filter (fun g => match truthy_id (g_parent_id g) with
                                     | None => true | Some _ => false end) l))%list.
Proof.
  induction l as [|a l IH]; intros c r.
  - simpl. split; [intros k |]; rewrite app_nil_r; reflexivity.
  - cbn [fold_left filter map].
    remember (tree_step keys (c, r) a) as s eqn:Es. unfold tree_step in Es.
    destruct (truthy_id (g_parent_id a)) as [pid|] eqn:Ht.
    + destruct (existsb (String.eqb pid) keys) eqn:Ek; subst s.
      * assert (Ek' : in_ids keys pid = true) by exact Ek.
        destruct (IH (fun k => if String.eqb k pid then (c k ++ [g_id a])%list else c k) r)
          as [H1 H2].
        split; [intros k | exact H2]. rewrite H1, Ek'.
        destruct (String.eqb k pid); simpl; [rewrite <- app_assoc; reflexivity | reflexivity].
      * assert (Ek' : in_ids keys pid = false) by exact Ek.
        destruct (IH c r) as [H1 H2]. split; [intros k | exact H2].
        rewrite H1, Ek', andb_false_r. reflexivity.
    + subst s. destruct (IH c (r ++ [g_id a])%list) as [H1 H2]. split; [intros k |].
      * rewrite H1. reflexivity.
      * rewrite H2. simpl. rewrite <- app_assoc. reflexivity.
Qed.

(** X3. [buildGoalTree] puts in [rootGoals] the goals without a (truthy)
    parent id, in input order, and in the [children] of id k the goals
    whose parent id is k, in input order, provided some goal of the input
    has id k: a goal whose parent is not in the input is in no array. *)
Theorem buildGoalTree_spec (goals : list Goal) :
  snd (buildGoalTree goals) =
    map g_id (filter (fun g => match truthy_id (g_parent_id g) with
                               | None => true | Some _ => false end) goals) /\
  (forall k, fst (buildGoalTree goals) k =
    map g_id (filter (fun g => match truthy_id (g_parent_id g) with
                               | Some pid => String.eqb k pid && in_ids (map g_id goals) pid
                               | None => false end) goals)).
Proof.
  destruct (tree_fold (map g_id goals) goals (fun _ => []) []) as [H1 H2].
  split; [exact H2 | exact H1].
Qed.

(** ** Cascading delete *)

Lemma in_ids_In (ids : list string) (x : string) : in_ids ids x = true <-> In x ids.
Proof.
  unfold in_ids. rewrite existsb_exists. split.
  - intros [y [Hy E]]. apply String.eqb_eq in E. subst. exact Hy.
  - intros H. exists x. split; [exact H | apply String.eqb_refl].
Qed.

Lemma in_ids_app (a b : list string) (x : string) : in_ids (a ++ b) x = in_ids a x || in_ids b x.
Proof. unfold in_ids. apply existsb_app. Qed.

Lemma filter_length_strict {A} (f f' : A -> bool) (l : list A) :
  (forall x, f' x = true -> f x = true) ->
  (exists x, In x l /\ f x = true /\ f' x = false) ->
  (length (filter f' l) < length (filter f l))%nat.
Proof.
  intros Hsub [x [Hx [Hf Hf']]]. induction l as [|y l IH]; [destruct Hx |].
  assert (Hle : forall l, (length (filter f' l) <= length (filter f l))%nat).
  { induction l0 as [|z l0 IH0]; simpl; [lia |].
    destruct (f' z) eqn:E; [rewrite (Hsub z E) |]; destruct (f z); simpl; lia. }
  destruct Hx as [->|Hx].
  - simpl. rewrite Hf, Hf'. simpl. specialize (Hle l). lia.
  - specialize (IH Hx). simpl.
    destruct (f' y) eqn:E; [rewrite (Hsub y E) |]; destruct (f y); simpl; lia.
Qed.

(** The removed ids once the rounds stop: every row whose parent is
    removed is removed. *)
Lemma delete_closure_closed (st : GoalTable) :
  forall n d, (length (filter (fun g => negb (in_ids d (g_id g))) st) <= n)%nat ->
  forall g p, In g st -> g_parent_id g = Some p ->
  in_ids (delete_closure n st d) p = true -> in_ids (delete_closure n st d) (g_id g) = true.
Proof.
  induction n as [|m IH]; intros d Hn g p Hin Hp Hd.
  - simpl in *. destruct (in_ids d (g_id g)) eqn:E; [reflexivity | exfalso].
    assert (In g (filter (fun g => negb (in_ids d (g_id g))) st))
      by (apply filter_In; rewrite E; auto).
    destruct (filter _ st); [destruct H | simpl in Hn; lia].
  - cbn [delete_closure] in *.
    destruct (map g_id (filter _ st)) as [|m0 ms] eqn:Emore.
    + destruct (in_ids d (g_id g)) eqn:E; [reflexivity | exfalso].
      assert (In (g_id g) (map g_id (filter (fun g => match g_parent_id g with
                  | Some p => in_ids d p && negb (in_ids d (g_id g))
                  | None => false end) st))).
      { apply in_map, filter_In. rewrite Hp, Hd, E. auto. }
      rewrite Emore in H. destruct H.
    + refine (IH (d ++ m0 :: ms)%list _ g p Hin Hp Hd).
      assert (Hm : In m0 (m0 :: ms)) by (left; reflexivity). rewrite <- Emore in Hm.
      apply in_map_iff in Hm as [g0 [Hg0 Hm]]. apply filter_In in Hm as [Hg0in Hm].
      destruct (g_parent_id g0) as [p0|]; [| discriminate].
      apply andb_true_iff in Hm as [_ Hm].
      assert (Hlt : (length (filter (fun g => negb (in_ids (d ++ m0 :: ms) (g_id g))) st)
                     < length (filter (fun g => negb (in_ids d (g_id g))) st))%nat).
      { apply filter_length_strict.
        - intros x. rewrite in_ids_app. destruct (in_ids d (g_id x)); auto.
        - exists g0. split; [exact Hg0in |]. split; [exact Hm |].
          apply negb_true_iff in Hm. rewrite in_ids_app, Hm, orb_false_l, Hg0.
          apply negb_false_iff. apply in_ids_In. left. reflexivity. }
      lia.
Qed.

Lemma delete_closure_incl (st : GoalTable) :
  forall n d x, In x d -> In x (delete_closure n st d).
Proof.
  induction n as [|m IH]; intros d x Hx; simpl; [exact Hx |].
  destruct (map g_id _); [exact Hx |]. apply IH. apply in_or_app. left. exact Hx.
Qed.

(** Every removed id is the deleted id or the id of a row whose parent is
    removed. *)
Lemma delete_closure_origin (st : GoalTable) (id : string) :
  forall n d,
  (forall x, In x d -> x = id \/ exists g p, In g st /\ g_id g = x /\ g_parent_id g = Some p /\ In p d) ->
  forall x, In x (delete_closure n st d) ->
  x = id \/ exists g p, In g st /\ g_id g = x /\ g_parent_id g = Some p
                        /\ In p (delete_closure n st d).
Proof.
  induction n as [|m IH]; intros d Hd; simpl; [exact Hd |].
  destruct (map g_id (filter _ st)) as [|m0 ms] eqn:Emore; [exact Hd |].
  apply IH. intros x Hx. apply in_app_or in Hx as [Hx|Hx].
  - destruct (Hd x Hx) as [E|[g [p [H1 [H2 [H3 H4]]]]]]; [left; exact E | right].
    exists g, p. repeat split; try assumption. apply in_or_app. left. exact H4.
  - right. rewrite <- Emore in Hx. apply in_map_iff in Hx as [g [Hg Hx]].
    apply filter_In in Hx as [Hin Hx]. destruct (g_parent_id g) as [p|] eqn:Hp; [| discriminate].
    apply andb_true_iff in Hx as [Hx _]. apply in_ids_In in Hx.
    exists g, p. repeat split; try assumption. apply in_or_app. left. exact Hx.
Qed.

Lemma NoDup_ids_eq (st : GoalTable) (a b : Goal) :
  NoDup (map g_id st) -> In a st -> In b st -> g_id a = g_id b -> a = b.
Proof.
  induction st as [|h st IH]; intros Hnd Ha Hb E; [destruct Ha |].
  simpl in Hnd. inversion Hnd as [|? ? Hnotin Hnd']; subst.
  destruct Ha as [<-|Ha], Hb as [<-|Hb]; try reflexivity.
  - exfalso. apply Hnotin. rewrite E. apply in_map. exact Hb.
  - exfalso. apply Hnotin. rewrite <- E. apply in_map. exact Ha.
  - apply IH; assumption.
Qed.

(** X5. [deleteGoal] keeps only rows of the table, unchanged, and never
    the deleted id. When ids are unique and every parent reference points
    to a row (the foreign key), a row survives exactly when it is not the
    deleted goal and the row it references as parent survives: the
    removal cascades down to every descendant and to nothing else. *)
Theorem deleteGoal_cascade (st : GoalTable) (id : string) :
  (forall g, In g (deleteGoal st id) -> In g st /\ g_id g <> id) /\
  (NoDup (map g_id st) ->
   forallb (fun g => match g_parent_id g with
                     | Some p => in_ids (map g_id st) p
                     | None => true end) st = true ->
   forall g, In g st ->
   (In g (deleteGoal st id) <->
    g_id g <> id /\
    forall p h, g_parent_id g = Some p -> In h st -> g_id h = p -> In h (deleteGoal st id))).
Proof.
  set (D := delete_closure (length st) st [id]).
  assert (Hid : In id D) by (apply delete_closure_incl; left; reflexivity).
  assert (Hsurv : forall g, In g (deleteGoal st id) <-> In g st /\ ~ In (g_id g) D).
  { intros g. unfold deleteGoal. fold D. rewrite filter_In, negb_true_iff.
    split; intros [H1 H2]; split; try exact H1.
    - intros H. apply in_ids_In in H. congruence.
    - destruct (in_ids D (g_id g)) eqn:E; [| reflexivity].
      apply in_ids_In in E. contradiction. }
  assert (Hclosed : forall g p, In g st -> g_parent_id g = Some p -> In p D -> In (g_id g) D).
  { intros g p Hin Hp HpD. apply in_ids_In. apply in_ids_In in HpD.
    apply (delete_closure_closed st (length st) [id] (filter_length_le _ _) g p Hin Hp HpD). }
  split.
  - intros g Hg. apply Hsurv in Hg as [Hin Hnot]. split; [exact Hin |].
    intros E. apply Hnot. rewrite E. exact Hid.
  - intros Hnd Hfk g Hin. split.
    + intros Hg. apply Hsurv in Hg as [_ Hnot]. split.
      * intros E. apply Hnot. rewrite E. exact Hid.
      * intros p h Hp Hh E. apply Hsurv. split; [exact Hh |].
        intros HhD. apply Hnot. apply (Hclosed g p Hin Hp). rewrite <- E. exact HhD.
    + intros [Hne Hpar]. apply Hsurv. split; [exact Hin |]. intros HgD.
      destruct (delete_closure_origin st id (length st) [id]
                  ltac:(intros x [<-|[]]; left; reflexivity) (g_id g) HgD)
        as [E|[g' [p [Hg' [E [Hp HpD]]]]]]; [exact (Hne E) |].
      assert (g' = g) by (apply (NoDup_ids_eq st); assumption). subst g'.
      rewrite forallb_forall in Hfk. specialize (Hfk g Hin). rewrite Hp in Hfk.
      apply in_ids_In, in_map_iff in Hfk as [h [Eh Hh]].
      specialize (Hpar p h Hp Hh Eh). apply Hsurv in Hpar as [_ Hnot].
      apply Hnot. rewrite Eh. exact HpD.
Qed.

(** Witness for X5: deleting [B] from [move_table] removes [B], [C] and
    [D] and keeps [A], [X] and [Y]. *)
Lemma deleteGoal_cascade_witness :
  map g_id (deleteGoal move_table "B") = ["A"; "X"; "Y"] /\
  (In (goal_row "Y" (Some "X") 2 0 active) (deleteGoal move_table "B") <->
   "Y" <> "B" /\ forall p h, Some "X" = Some p -> In h move_table -> g_id h = p ->
                 In h (deleteGoal move_table "B")).
Proof.
  split; [vm_compute; reflexivity |].
  exact (proj2 (deleteGoal_cascade move_table "B")
           ltac:(repeat constructor; cbv; intuition discriminate)
           ltac:(vm_compute; reflexivity)
           (goal_row "Y" (Some "X") 2 0 active)
           ltac:(right; right; right; right; right; left; reflexivity)).
Defined.

(** ** Moving a goal leaves progress and status alone *)

Open Scope Q_scope.

Lemma numeric_5_2_comp (x y : Q) : x == y -> numeric_5_2 x == numeric_5_2 y.
Proof.
  intros H. unfold numeric_5_2.
  assert (Hb : Qle_bool 0 x = Qle_bool 0 y).
  { destruct (Qle_bool 0 x) eqn:E1, (Qle_bool 0 y) eqn:E2; bool_to_Q; try reflexivity; lra. }
  assert (F1 : Qfloor (x * 100 + (1#2)) = Qfloor (y * 100 + (1#2)))
    by (apply Qfloor_comp; rewrite H; reflexivity).
  assert (F2 : Qfloor (- x * 100 + (1#2)) = Qfloor (- y * 100 + (1#2)))
    by (apply Qfloor_comp; rewrite H; reflexivity).
  rewrite Hb, F1, F2. reflexivity.
Qed.

Lemma Forall2_same_refl (st : GoalTable) : Forall2 same_progress_status st st.
Proof.
  induction st as [|g st IH]; constructor; [| exact IH].
  unfold same_progress_status. repeat split; reflexivity.
Qed.

Lemma Forall2_same_trans (a b c : GoalTable) :
  Forall2 same_progress_status a b -> Forall2 same_progress_status b c ->
  Forall2 same_progress_status a c.
Proof.
  intros H1. revert c. induction H1 as [|x y a b Hxy H1 IH]; intros c H2;
    inversion H2 as [|? z ? c' Hyz H2']; subst; constructor; [| apply IH; exact H2'].
  destruct Hxy as (E1 & E2 & E3), Hyz as (F1 & F2 & F3).
  repeat split; [congruence | congruence | rewrite E3; exact F3].
Qed.

Lemma Forall2_same_fixed (st st' : GoalTable) :
  Forall2 same_progress_status st st' ->
  Forall (fun g => numeric_5_2 (g_progress g) == g_progress g) st ->
  Forall (fun g => numeric_5_2 (g_progress g) == g_progress g) st'.
Proof.
  induction 1 as [|x y a b Hxy H IH]; intros Hf; [constructor |].
  inversion Hf as [|? ? Hx Ha]; subst. constructor; [| apply IH; exact Ha].
  destruct Hxy as (_ & _ & E).
  exact (Qeq_trans _ _ _ (Qeq_trans _ _ _ (numeric_5_2_comp _ _ (Qeq_sym _ _ E)) Hx) E).
Qed.

Lemma replace_goal_same (st : GoalTable) (new : Goal) :
  (forall g, In g st -> g_id g = g_id new -> same_progress_status g new) ->
  Forall2 same_progress_status st (replace_goal st new).
Proof.
  induction st as [|h st IH]; intros H; [constructor |].
  unfold replace_goal; simpl. constructor.
  - destruct (String.eqb_spec (g_id h) (g_id new)) as [E|E].
    + apply H; [left; reflexivity | exact E].
    + unfold same_progress_status. repeat split; reflexivity.
  - apply IH. intros g Hg. apply H. right. exact Hg.
Qed.

(** A row update that assigns neither progress nor status keeps every
    row's progress and status, and fires no parent recomputation, when
    the stored progress values are already rounded to the column. *)
Lemma db_update_goal_keeps (fuel : nat) (now : Z) (st : GoalTable) (id : string)
    (patch : GoalPatch) (st' : GoalTable) (g' : Goal) :
  Forall (fun g => numeric_5_2 (g_progress g) == g_progress g) st ->
  p_progress patch = None -> p_status patch = None ->
  db_update_goal fuel now st id patch = Some (st', g') ->
  Forall2 same_progress_status st st'.
Proof.
  intros Hfix Hpr Hst H. destruct fuel as [|f]; [discriminate |]. cbn [db_update_goal] in H.
  destruct (rows_with_id st id) as [|old [|o2 rest]] eqn:Erows; try discriminate.
  cbv zeta in H.
  assert (Hold : In old st /\ g_id old = id).
  { assert (Hr : In old (rows_with_id st id)) by (rewrite Erows; left; reflexivity).
    apply filter_In in Hr as [Hr E]. apply String.eqb_eq in E. auto. }
  set (new := store_goal (apply_patch old patch)) in *.
  assert (Hsame : same_progress_status old new).
  { unfold new, store_goal, apply_patch, same_progress_status; simpl.
    rewrite Hpr, Hst. simpl. repeat split.
    symmetry. exact (proj1 (Forall_forall _ _) Hfix old (proj1 Hold)). }
  assert (Htrig : parent_trigger_fires (Some old) new = false).
  { destruct Hsame as (_ & Es & Ep). unfold parent_trigger_fires.
    destruct (g_parent_id new); [| reflexivity].
    rewrite Es. assert (Eq : Qeq_bool (g_progress new) (g_progress old) = true)
      by (apply Qeq_bool_iff; symmetry; exact Ep).
    rewrite Eq. destruct (g_status new); reflexivity. }
  destruct (validate_goal_hierarchy st new && goal_row_ok st new); [| discriminate].
  rewrite Htrig in H. injection H as <- _.
  apply replace_goal_same. intros g Hg E.
  assert (Hr : In g (rows_with_id st id)).
  { apply filter_In. split; [exact Hg |]. apply String.eqb_eq.
    rewrite E. destruct Hsame as (Ei & _). rewrite <- Ei. exact (proj2 Hold). }
  rewrite Erows in Hr. destruct Hr as [<-|[]]. exact Hsame.
Qed.

Lemma updateDescendantLevels_keeps (fuel dbfuel : nat) (now : Z) :
  forall st goalId parentLevel st',
  Forall (fun g => numeric_5_2 (g_progress g) == g_progress g) st ->
  updateDescendantLevels fuel dbfuel now st goalId parentLevel = Done st' ->
  Forall2 same_progress_status st st'.
Proof.
  induction fuel as [|f IH]; intros st goalId parentLevel st' Hfix H; [discriminate |].
  cbn [updateDescendantLevels] in H.
  match type of H with ?F (getGoalChildren st goalId) st = Done st' => set (loop := F) in H end.
  assert (Hl : forall cs s, Forall (fun g => numeric_5_2 (g_progress g) == g_progress g) s ->
                 loop cs s = Done st' -> Forall2 same_progress_status s st').
  { induction cs as [|c cs IHcs]; intros s Hs E.
    - unfold loop in E. cbv beta iota in E. injection E as <-. apply Forall2_same_refl.
    - unfold loop in E. cbv beta iota zeta in E. fold loop in E.
      destruct (parentLevel + 1 <=? 4)%Z; [| exact (IHcs s Hs E)].
      assert (H1 : Forall2 same_progress_status s
                     match db_update_goal dbfuel now s (g_id c) (level_patch (parentLevel + 1)) with
                     | Some (st1, _) => st1 | None => s end).
      { destruct (db_update_goal dbfuel now s (g_id c) (level_patch (parentLevel + 1)))
          as [[s1 x]|] eqn:Edb; [| apply Forall2_same_refl].
        exact (db_update_goal_keeps _ _ _ _ (level_patch (parentLevel + 1)) _ _ Hs eq_refl eq_refl Edb). }
      set (s1 := match db_update_goal dbfuel now s (g_id c) (level_patch (parentLevel + 1)) with
                 | Some (st1, _) => st1 | None => s end) in *.
      pose proof (Forall2_same_fixed _ _ H1 Hs) as Hs1.
      destruct (updateDescendantLevels f dbfuel now s1 (g_id c) (parentLevel + 1))
        as [s2| |] eqn:Er; try discriminate.
      pose proof (IH _ _ _ _ Hs1 Er) as H2.
      pose proof (Forall2_same_fixed _ _ H2 Hs1) as Hs2.
      exact (Forall2_same_trans _ _ _ H1 (Forall2_same_trans _ _ _ H2 (IHcs s2 Hs2 E))). }
  exact (Hl _ _ Hfix H).
Qed.

(** X4. [moveGoal] changes parent references and levels only: when it
    succeeds, the table has the same rows in the same order with the same
    ids, the same status and the same progress, as long as the stored
    progress values are already rounded to the column's two decimals. In
    particular neither the old nor the new parent gets its progress
    recomputed after the move. *)
Theorem moveGoal_keeps_progress_status (fuel dbfuel : nat) (now : Z) (st : GoalTable)
    (goalId : string) (newParentId : option string) (st' : GoalTable) (moved : Goal) :
  Forall (fun g => numeric_5_2 (g_progress g) == g_progress g) st ->
  moveGoal fuel dbfuel now st goalId newParentId = Done (st', moved) ->
  Forall2 same_progress_status st st'.
Proof.
  intros Hfix H. unfold moveGoal in H.
  destruct (getGoal st goalId) as [g0|]; [| discriminate]. cbv zeta in H.
  destruct (match truthy_id newParentId with
            | Some pid =>
              match getGoal st pid with
              | None => None
              | Some newParent =>
                if (4 <=? g_level newParent)%Z then None else Some (g_level newParent + 1)%Z
              end
            | None => Some 1%Z
            end) as [nl|]; [| discriminate].
  destruct (4 <? nl)%Z; [discriminate |].
  destruct (db_update_goal dbfuel now st goalId (move_patch (truthy_id newParentId) nl))
    as [[st1 m]|] eqn:Edb; [| discriminate].
  destruct (updateDescendantLevels fuel dbfuel now st1 goalId nl) as [st2| |] eqn:Eu;
    try discriminate.
  injection H as <- _.
  pose proof (db_update_goal_keeps _ _ _ _ (move_patch (truthy_id newParentId) nl) _ _
                Hfix eq_refl eq_refl Edb) as H1.
  pose proof (updateDescendantLevels_keeps _ _ _ _ _ _ _ (Forall2_same_fixed _ _ H1 Hfix) Eu) as H2.
  exact (Forall2_same_trans _ _ _ H1 H2).
Qed.

(** Witness for X4: moving [B] under [Y] in [move_table]. *)
Lemma moveGoal_keeps_progress_status_witness :
  match moveGoal 10 10 0 move_table "B" (Some "Y") with
  | Done (st', _) => Forall2 same_progress_status move_table st'
  | _ => False
  end.
Proof.
  destruct (moveGoal 10 10 0 move_table "B" (Some "Y")) as [[st' m]| |] eqn:E;
    [| vm_compute in E; discriminate | vm_compute in E; discriminate].
  exact (moveGoal_keeps_progress_status 10 10 0 move_table "B" (Some "Y") st' m
           ltac:(repeat constructor) E).
Defined.

Close Scope Q_scope.

(** ** Dashboard counters and the order of the today list *)

Lemma Permutation_filter_bool {A} (f : A -> bool) (l l' : list A) :
  Permutation l l' -> Permutation (filter f l) (filter f l').
Proof.
  induction 1 as [|x l l' H IH|x y l|l l' l'' H1 IH1 H2 IH2]; simpl.
  - constructor.
  - destruct (f x); [apply perm_skip |]; exact IH.
  - destruct (f x), (f y); try apply perm_swap; apply Permutation_refl.
  - eapply perm_trans; eassumption.
Qed.

Lemma filter_map_none {A B} (f : B -> bool) (g : A -> B) (l : list A) :
  (forall x, f (g x) = false) -> filter f (map g l) = [].
Proof. intros H. induction l as [|x l IH]; simpl; [reflexivity | rewrite H; exact IH]. Qed.

Lemma filter_map_all {A B} (f : B -> bool) (g : A -> B) (l : list A) :
  (forall x, f (g x) = true) -> length (filter f (map g l)) = length l.
Proof. intros H. induction l as [|x l IH]; simpl; [reflexivity | rewrite H; simpl; lia]. Qed.

(** X6. The dashboard's [overdueItems] counter equals the length of the
    overdue list, and its [completedEvents] counter (events whose end is
    past) equals the number of events in that list. *)
Theorem calculateStatistics_overdue (now : Z) (goals : list Goal) (events : list Event) :
  ds_overdueItems (calculateStatistics now goals events)
    = Z.of_nat (length (getOverdueItems now goals events)) /\
  ds_completedEvents (calculateStatistics now goals events)
    = Z.of_nat (length (filter (fun it => match oi_type it with
                                          | event_item => true | goal_item => false end)
                          (getOverdueItems now goals events))).
Proof.
  unfold getOverdueItems. split.
  - rewrite (Permutation_length (js_sort_perm overdue_cmp _)).
    unfold overdue_items_unsorted. rewrite length_app, !length_map. simpl. lia.
  - rewrite (Permutation_length (Permutation_filter_bool _ _ _ (js_sort_perm overdue_cmp _))).
    unfold overdue_items_unsorted. rewrite filter_app, length_app.
    rewrite filter_map_none by reflexivity. rewrite filter_map_all by reflexivity.
    reflexivity.
Qed.

Lemma getTodayTasks_length (now : Z) (goals : list Goal) (events : list Event) :
  length (getTodayTasks now goals events)
  = (length (filter (today_goal_filter now) goals)
     + length (filter (today_event_filter now) events))%nat.
Proof.
  unfold getTodayTasks. rewrite (Permutation_length (js_sort_perm today_cmp _)).
  unfold today_tasks_unsorted. rewrite length_app, !length_map. reflexivity.
Qed.

(** X7. The dashboard's [todayTasksCount] counts the level-4 goals due
    today whatever their status, while the today list holds the active
    level-4 goals due today or undated: the counter plus the active
    undated level-4 goals equals the list's length plus the non-active
    level-4 goals due today. *)
Theorem calculateStatistics_today_count (now : Z) (goals : list Goal) (events : list Event) :
  ds_todayTasksCount (calculateStatistics now goals events)
  + count_where (fun g => (g_level g =? 4) && GoalStatus_eqb (g_status g) active
                          && match g_due_date g with None => true | Some _ => false end) goals
  = Z.of_nat (length (getTodayTasks now goals events))
    + count_where (fun g => (g_level g =? 4) && isDueToday now g
                            && negb (GoalStatus_eqb (g_status g) active)) goals.
Proof.
  rewrite getTodayTasks_length. unfold calculateStatistics, count_where. simpl.
  assert (Hg : Nat.add (length (filter (fun g => (g_level g =? 4) && isDueToday now g) goals))
                 (length (filter (fun g => (g_level g =? 4) && GoalStatus_eqb (g_status g) active
                            && match g_due_date g with None => true | Some _ => false end) goals))
                = Nat.add (length (filter (today_goal_filter now) goals))
                  (length (filter (fun g => (g_level g =? 4) && isDueToday now g
                            && negb (GoalStatus_eqb (g_status g) active)) goals))).
  { induction goals as [|a l IH]; [reflexivity |]. simpl.
    unfold today_goal_filter, isDueToday in *.
    destruct (g_level a =? 4), (g_status a), (g_due_date a) as [d|];
      try destruct (isToday now d); simpl; lia. }
  assert (He : filter (fun e => isToday now (e_start_date e)) events
               = filter (today_event_filter now) events) by reflexivity.
  rewrite He. lia.
Qed.

Lemma today_cmp_le (x y : TodayTask) : today_cmp x y <= 0 -> today_before x y.
Proof.
  unfold today_cmp, today_before.
  destruct (Z.eqb_spec (tt_priority x) (tt_priority y)) as [E|E]; simpl; [| lia].
  intros H. right. split; [exact E |].
  destruct (tt_dueTime x) as [a|], (tt_dueTime y) as [b|]; try exact I; [| lia].
  destruct (Z.compare_spec a b); lia.
Qed.

Lemma today_cmp_gt (x y : TodayTask) : 0 < today_cmp x y -> today_before y x.
Proof.
  unfold today_cmp, today_before.
  destruct (Z.eqb_spec (tt_priority x) (tt_priority y)) as [E|E]; simpl; [| lia].
  intros H. right. split; [symmetry; exact E |].
  destruct (tt_dueTime x) as [a|], (tt_dueTime y) as [b|]; try exact I; [| lia].
  destruct (Z.compare_spec a b); lia.
Qed.

(** X12. The today list is sorted by priority, descending, and at equal
    priority the timed events come first, by time of day ascending, then
    the untimed tasks. *)
Theorem getTodayTasks_sorted (now : Z) (goals : list Goal) (events : list Event) :
  Sorted today_before (getTodayTasks now goals events).
Proof. apply js_sort_sorted; [exact today_cmp_le | exact today_cmp_gt]. Qed.

Lemma split_goals_events (l : list TodayTask) :
  StronglySorted priority_before l ->
  (forall t, In t l -> (tt_type t = goal_item /\ 9 <= tt_priority t)
                       \/ (tt_type t = event_item /\ tt_priority t <= 8)) ->
  exists gs es, l = (gs ++ es)%list /\ Forall (fun t => tt_type t = goal_item) gs
                /\ Forall (fun t => tt_type t = event_item) es.
Proof.
  induction 1 as [|a l Hs IH Hall]; intros Hty.
  - exists [], []. repeat constructor.
  - destruct (Hty a (or_introl eq_refl)) as [[Ha Hp]|[Ha Hp]].
    + destruct IH as [gs [es [-> [H1 H2]]]]; [intros t Ht; apply Hty; right; exact Ht |].
      exists (a :: gs), es. split; [reflexivity |]. split; [constructor; assumption | exact H2].
    + exists [], (a :: l). split; [reflexivity |]. split; [constructor |].
      constructor; [exact Ha |]. apply Forall_forall. intros t Ht.
      rewrite Forall_forall in Hall. specialize (Hall t Ht). unfold priority_before in Hall.
      destruct (Hty t (or_intror Ht)) as [[_ Hq]|[Hq _]]; [lia | exact Hq].
Qed.

Ltac split_ifs :=
  repeat match goal with |- context [if ?b then _ else _] => destruct b end.

(** X11. In the today list every goal comes before every event: a level-4
    goal scores at least 9 and an event at most 8. *)
Theorem getTodayTasks_goals_first (now : Z) (goals : list Goal) (events : list Event) :
  exists gs es, getTodayTasks now goals events = (gs ++ es)%list
    /\ Forall (fun t => tt_type t = goal_item) gs
    /\ Forall (fun t => tt_type t = event_item) es.
Proof.
  apply split_goals_events.
  - apply Sorted_StronglySorted; [intros x y z H1 H2; unfold priority_before in *; lia |].
    apply js_sort_sorted; unfold today_cmp, priority_before; intros x y H;
      destruct (Z.eqb_spec (tt_priority x) (tt_priority y)); simpl in H; lia.
  - intros t Ht. unfold getTodayTasks in Ht.
    apply (Permutation_in _ (js_sort_perm today_cmp _)) in Ht.
    unfold today_tasks_unsorted in Ht. apply in_app_or in Ht as [Ht|Ht];
      apply in_map_iff in Ht as [x [<- Hx]]; apply filter_In in Hx as [_ Hf].
    + left. split; [reflexivity |]. simpl.
      unfold today_goal_filter in Hf. apply andb_true_iff in Hf as [Hf _].
      apply andb_true_iff in Hf as [Hl _]. apply Z.eqb_eq in Hl.
      unfold calculateGoalPriority, clamp_priority. rewrite Hl. split_ifs; lia.
    + right. split; [reflexivity |]. simpl.
      unfold calculateEventPriority, clamp_priority. split_ifs; lia.
Qed.

(** ** Progress averages stay in range *)

Open Scope Q_scope.






Lemma getGoalStatistics_fold (goals : list Goal) :
  forall l s t,
  fold_left (fun '(l, s, t) goal =>
               (bump_level l (g_level goal), bump_status s (g_status goal),
                (t + g_progress goal)%Q)) goals (l, s, t)
  = (fold_left bump_level (map g_level goals) l, fold_left bump_status (map g_status goals) s,
     fold_left (fun sum child => sum + g_progress child) goals t).
Proof.
  induction goals as [|g l IH]; intros lv s t; simpl; [reflexivity | apply IH].
Qed.





(** ** Chart values *)


Lemma count_where_le {A} (p : A -> bool) (l : list A) :
  (0 <= count_where p l <= Z.of_nat (length l))%Z.
Proof. unfold count_where. pose proof (filter_length_le p l). lia. Qed.




Close Scope Q_scope.

(** ** Goal statistics by status and by level *)

Lemma count_where_cons {A} (p : A -> bool) (x : A) (l : list A) :
  count_where p (x :: l) = (if p x then 1 else 0) + count_where p l.
Proof. unfold count_where. simpl. destruct (p x); simpl length; lia. Qed.

Lemma bump_status_fold (goals : list Goal) : forall s,
  let r := fold_left bump_status (map g_status goals) s in
  bs_active r = bs_active s + count_where (fun g => GoalStatus_eqb (g_status g) active) goals /\
  bs_completed r = bs_completed s
                   + count_where (fun g => GoalStatus_eqb (g_status g) completed) goals /\
  bs_paused r = bs_paused s + count_where (fun g => GoalStatus_eqb (g_status g) paused) goals /\
  bs_cancelled r = bs_cancelled s
                   + count_where (fun g => GoalStatus_eqb (g_status g) cancelled) goals.
Proof.
  induction goals as [|g l IH]; intros s r.
  - unfold r, count_where. simpl. lia.
  - unfold r. cbn [map fold_left]. rewrite !count_where_cons.
    destruct (IH (bump_status s (g_status g))) as (H1 & H2 & H3 & H4).
    rewrite H1, H2, H3, H4.
    destruct (g_status g); cbn [bump_status bs_active bs_completed bs_paused bs_cancelled GoalStatus_eqb]; lia.
Qed.

Lemma status_partition (goals : list Goal) :
  count_where (fun g => GoalStatus_eqb (g_status g) active) goals
  + count_where (fun g => GoalStatus_eqb (g_status g) completed) goals
  + count_where (fun g => GoalStatus_eqb (g_status g) paused) goals
  + count_where (fun g => GoalStatus_eqb (g_status g) cancelled) goals
  = Z.of_nat (length goals).
Proof.
  induction goals as [|g l IH]; [reflexivity |].
  rewrite !count_where_cons. change (length (g :: l)) with (S (length l)).
  destruct (g_status g); cbn [GoalStatus_eqb]; lia.
Qed.

Lemma bump_level_fold_in_range (goals : list Goal) : forall a b c d,
  Forall (fun g => 1 <= g_level g <= 4) goals ->
  fold_left bump_level (map g_level goals) [(1, Some a); (2, Some b); (3, Some c); (4, Some d)]
  = [(1, Some (a + count_where (fun g => g_level g =? 1) goals));
     (2, Some (b + count_where (fun g => g_level g =? 2) goals));
     (3, Some (c + count_where (fun g => g_level g =? 3) goals));
     (4, Some (d + count_where (fun g => g_level g =? 4) goals))].
Proof.
  induction goals as [|g l IH]; intros a b c d Hr.
  - unfold count_where. simpl. rewrite !Z.add_0_r. reflexivity.
  - inversion Hr as [|? ? Hg Hl]; subst. cbn [map fold_left]. rewrite !count_where_cons.
    assert (Hk : g_level g = 1 \/ g_level g = 2 \/ g_level g = 3 \/ g_level g = 4) by lia.
    destruct Hk as [E|[E|[E|E]]]; rewrite E;
      cbn [bump_level existsb map fst snd option_map Z.eqb Pos.eqb orb]; rewrite IH by exact Hl;
      repeat (first [lia | f_equal]).
Qed.

Lemma bump_level_nan_inv (m : list (Z * option Z)) (k : Z) :
  (forall e, In e m -> ~ (1 <= fst e <= 4) -> snd e = None) ->
  forall e, In e (bump_level m k) -> ~ (1 <= fst e <= 4) -> snd e = None.
Proof.
  intros Hinv e He Hout. unfold bump_level in He.
  destruct (existsb (fun e => fst e =? k) m).
  - apply in_map_iff in He as [e0 [<- He0]].
    destruct (fst e0 =? k); simpl in *; [rewrite (Hinv e0 He0 Hout); reflexivity |].
    exact (Hinv e0 He0 Hout).
  - apply in_app_or in He as [He|[<-|[]]]; [exact (Hinv e He Hout) | reflexivity].
Qed.

Lemma bump_level_key (m : list (Z * option Z)) (k k' : Z) :
  (k' = k \/ exists v, In (k', v) m) -> exists v, In (k', v) (bump_level m k).
Proof.
  intros H. unfold bump_level. destruct (existsb (fun e => fst e =? k) m) eqn:Ex.
  - destruct H as [->|[v Hv]].
    + apply existsb_exists in Ex as [[k0 v0] [Hin E]]. simpl in E. apply Z.eqb_eq in E. subst.
      exists (option_map Z.succ v0). apply in_map_iff. exists (k, v0). simpl.
      rewrite Z.eqb_refl. auto.
    + exists (if k' =? k then option_map Z.succ v else v). apply in_map_iff.
      exists (k', v). simpl. split; [destruct (k' =? k); reflexivity | exact Hv].
  - destruct H as [->|[v Hv]].
    + exists None. apply in_or_app. right. left. reflexivity.
    + exists v. apply in_or_app. left. exact Hv.
Qed.

Lemma bump_level_fold_key (ks : list Z) : forall m k,
  (In k ks \/ exists v, In (k, v) m) -> exists v, In (k, v) (fold_left bump_level ks m).
Proof.
  induction ks as [|k0 ks IH]; intros m k H; simpl.
  - destruct H as [[]|H]. exact H.
  - apply IH. destruct H as [[->|H]|H].
    + right. apply bump_level_key. left. reflexivity.
    + left. exact H.
    + right. apply bump_level_key. right. exact H.
Qed.

Lemma bump_level_fold_nan (ks : list Z) : forall m,
  (forall e, In e m -> ~ (1 <= fst e <= 4) -> snd e = None) ->
  forall e, In e (fold_left bump_level ks m) -> ~ (1 <= fst e <= 4) -> snd e = None.
Proof.
  induction ks as [|k ks IH]; intros m Hinv; simpl; [exact Hinv |].
  apply IH. apply bump_level_nan_inv. exact Hinv.
Qed.

(** X9. [getGoalStatistics]: its [goalsByStatus] counts agree with its
    [activeGoals] and [completedGoals] and add up to [totalGoals]; when
    every level is in 1..4, [goalsByLevel] holds the four per-level
    counts; a goal at another level adds that level as a key whose count
    is [NaN] (here [None]). *)
Theorem getGoalStatistics_counts (goals : list Goal) :
  bs_active (gs_goalsByStatus (getGoalStatistics goals)) = gs_activeGoals (getGoalStatistics goals) /\
  bs_completed (gs_goalsByStatus (getGoalStatistics goals))
    = gs_completedGoals (getGoalStatistics goals) /\
  bs_active (gs_goalsByStatus (getGoalStatistics goals))
  + bs_completed (gs_goalsByStatus (getGoalStatistics goals))
  + bs_paused (gs_goalsByStatus (getGoalStatistics goals))
  + bs_cancelled (gs_goalsByStatus (getGoalStatistics goals))
    = gs_totalGoals (getGoalStatistics goals) /\
  (Forall (fun g => 1 <= g_level g <= 4) goals ->
   gs_goalsByLevel (getGoalStatistics goals)
   = [(1, Some (count_where (fun g => g_level g =? 1) goals));
      (2, Some (count_where (fun g => g_level g =? 2) goals));
      (3, Some (count_where (fun g => g_level g =? 3) goals));
      (4, Some (count_where (fun g => g_level g =? 4) goals))]) /\
  (forall g, In g goals -> ~ (1 <= g_level g <= 4) ->
   In (g_level g, None) (gs_goalsByLevel (getGoalStatistics goals))).
Proof.
  pose proof (bump_status_fold goals (mkGoalsByStatus 0 0 0 0)) as Hb. cbv zeta in Hb.
  destruct Hb as (H1 & H2 & H3 & H4).
  cbn [bs_active bs_completed bs_paused bs_cancelled] in H1, H2, H3, H4.
  unfold getGoalStatistics. rewrite getGoalStatistics_fold.
  cbn [gs_activeGoals gs_completedGoals gs_totalGoals gs_goalsByLevel gs_goalsByStatus].
  split; [lia |]. split; [lia |]. split; [pose proof (status_partition goals); lia |].
  split.
  - intros Hr. rewrite (bump_level_fold_in_range goals 0 0 0 0 Hr). reflexivity.
  - intros g Hin Hout.
    destruct (bump_level_fold_key (map g_level goals)
                [(1, Some 0); (2, Some 0); (3, Some 0); (4, Some 0)] (g_level g)
                (or_introl (in_map _ _ _ Hin))) as [v Hv].
    assert (Hinit : forall e, In e [(1, Some 0); (2, Some 0); (3, Some 0); (4, Some 0)] ->
                      ~ (1 <= fst e <= 4) -> snd e = None).
    { intros e He Ho. exfalso. apply Ho.
      destruct He as [<-|[<-|[<-|[<-|[]]]]]; simpl; lia. }
    pose proof (bump_level_fold_nan _ _ Hinit _ Hv Hout) as Hn. simpl in Hn. subst v. exact Hv.
Qed.

(** ** Profile creation *)

(** X13. [create_profile_for_user] keeps every existing profile and
    leaves the table as it was when the user already has one; afterwards
    the user has a profile (the existing one, or a new one with the
    default stats); running it twice is the same as once; and it keeps
    user ids unique. *)
Theorem create_profile_for_user_spec (profiles : list Profile) (uid : string) :
  (forall pr, In pr profiles -> In pr (create_profile_for_user profiles uid)) /\
  ((exists pr, In pr profiles /\ pr_user_id pr = uid) ->
   create_profile_for_user profiles uid = profiles) /\
  (exists pr, In pr (create_profile_for_user profiles uid) /\ pr_user_id pr = uid
              /\ (In pr profiles \/ pr_stats pr = default_stats)) /\
  create_profile_for_user (create_profile_for_user profiles uid) uid
    = create_profile_for_user profiles uid /\
  (NoDup (map pr_user_id profiles) ->
   NoDup (map pr_user_id (create_profile_for_user profiles uid))).
Proof.
  unfold create_profile_for_user.
  destruct (existsb (fun pr => String.eqb (pr_user_id pr) uid) profiles) eqn:E.
  - split; [auto |]. split; [auto |]. split.
    + apply existsb_exists in E as [pr [Hin Hid]]. apply String.eqb_eq in Hid.
      exists pr. auto.
    + rewrite E. split; [reflexivity | auto].
  - assert (Hnot : forall pr, In pr profiles -> pr_user_id pr <> uid).
    { intros pr Hin Hid. assert (existsb (fun pr => String.eqb (pr_user_id pr) uid) profiles = true)
        by (apply existsb_exists; exists pr; split; [exact Hin | apply String.eqb_eq; exact Hid]).
      congruence. }
    split; [intros pr Hin; apply in_or_app; left; exact Hin |].
    split; [intros [pr [Hin Hid]]; exfalso; exact (Hnot pr Hin Hid) |].
    split; [exists (mkProfile uid default_stats); split; [apply in_or_app; right; left; reflexivity |];
            split; [reflexivity | right; reflexivity] |].
    split.
    + rewrite existsb_app, E. simpl. rewrite String.eqb_refl. reflexivity.
    + intros Hnd. rewrite map_app. simpl.
      apply (Permutation_NoDup (Permutation_cons_append _ _)).
      constructor; [| exact Hnd].
      intros Hin. apply in_map_iff in Hin as [pr [Hid Hin]]. exact (Hnot pr Hin Hid).
Qed.

(** Summing, over distinct keys, the number of rows whose key is each one
    counts every row whose key is among them exactly once. *)
Lemma count_keys_sum {A} (key : A -> option string) (cs : list string) (l : list A) :
  NoDup cs ->
  fold_right Z.add 0 (map (fun c => count_where (fun x => opt_string_eqb (key x) (Some c)) l) cs)
  = count_where (fun x => match key x with Some k => in_ids cs k | None => false end) l.
Proof.
  induction cs as [|c cs IH]; intros Hnd; simpl.
  - induction l as [|x l IHl]; [reflexivity |].
    rewrite count_where_cons, <- IHl. destruct (key x); reflexivity.
  - inversion Hnd as [|? ? Hc Hnd']; subst. rewrite (IH Hnd'). clear IH.
    induction l as [|x l IHl]; [reflexivity |].
    rewrite !count_where_cons.
    destruct (key x) as [k|] eqn:Ek.
    + cbn [opt_string_eqb]. change (in_ids (c :: cs) k) with (String.eqb k c || in_ids cs k).
      destruct (String.eqb_spec k c) as [->|Hne].
      * assert (Hcs : in_ids cs c = false).
        { destruct (in_ids cs c) eqn:E; [apply in_ids_In in E; contradiction | reflexivity]. }
        rewrite Hcs. cbn [orb]. lia.
      * cbn [orb]. lia.
    + cbn [opt_string_eqb]. lia.
Qed.

(** X15. For categories with distinct ids, [createCategoryDistribution]
    gives one entry per category, and its goal counts add up to the number
    of goals whose [categoryId] is one of those ids (its event counts, to the
    number of such events): a goal or event without a category, or with an
    unknown one, is in no entry, and none is counted twice, so the goal
    counts add up to at most the number of goals. *)
Theorem createCategoryDistribution_totals (goals : list Goal) (events : list Event)
    (categories : list Category) :
  NoDup (map c_id categories) ->
  length (createCategoryDistribution goals events categories) = length categories /\
  fold_right Z.add 0 (map cd_goals (createCategoryDistribution goals events categories))
    = count_where (fun g => match g_category_id g with
                            | Some k => in_ids (map c_id categories) k
                            | None => false end) goals /\
  fold_right Z.add 0 (map cd_events (createCategoryDistribution goals events categories))
    = count_where (fun e => match e_category_id e with
                            | Some k => in_ids (map c_id categories) k
                            | None => false end) events /\
  fold_right Z.add 0 (map cd_goals (createCategoryDistribution goals events categories))
    <= Z.of_nat (length goals).
Proof.
  intros Hnd. unfold createCategoryDistribution. rewrite !map_map. cbn [cd_goals cd_events].
  assert (Hg := count_keys_sum g_category_id (map c_id categories) goals Hnd).
  assert (He := count_keys_sum e_category_id (map c_id categories) events Hnd).
  rewrite map_map in Hg, He.
  split; [apply length_map |].
  split; [exact Hg |]. split; [exact He |].
  rewrite Hg. apply count_where_le.
Qed.

(** Witness for X15: two categories; one goal of each kind: in [work], without a category,
    in a deleted category. *)
Lemma createCategoryDistribution_totals_witness :
  NoDup (map c_id [mkCategory "work" "Work" "#ff0000"; mkCategory "home" "Home" "#00ff00"]) /\
  map cd_goals (createCategoryDistribution
    [goal_row "A" None 1 0 active;
     {| g_id := "B"; g_title := ""; g_parent_id := None; g_level := 1; g_progress := 0;
        g_status := active; g_start_date := None; g_due_date := None; g_completed_at := None;
        g_category_id := Some "work"; g_user_id := "u" |};
     {| g_id := "C"; g_title := ""; g_parent_id := None; g_level := 1; g_progress := 0;
        g_status := active; g_start_date := None; g_due_date := None; g_completed_at := None;
        g_category_id := Some "gone"; g_user_id := "u" |}]
    [] [mkCategory "work" "Work" "#ff0000"; mkCategory "home" "Home" "#00ff00"]) = [1; 0] /\
  fold_right Z.add 0 (map cd_goals (createCategoryDistribution
    [goal_row "A" None 1 0 active;
     {| g_id := "B"; g_title := ""; g_parent_id := None; g_level := 1; g_progress := 0;
        g_status := active; g_start_date := None; g_due_date := None; g_completed_at := None;
        g_category_id := Some "work"; g_user_id := "u" |};
     {| g_id := "C"; g_title := ""; g_parent_id := None; g_level := 1; g_progress := 0;
        g_status := active; g_start_date := None; g_due_date := None; g_completed_at := None;
        g_category_id := Some "gone"; g_user_id := "u" |}]
    [] [mkCategory "work" "Work" "#ff0000"; mkCategory "home" "Home" "#00ff00"]))
    <= 3.
Proof.
  assert (Hnd : NoDup (map c_id [mkCategory "work" "Work" "#ff0000"; mkCategory "home" "Home" "#00ff00"])).
  { simpl. constructor; [simpl; intros [H|[]]; discriminate H |].
    constructor; [intros [] | constructor]. }
  split; [exact Hnd |]. split; [vm_compute; reflexivity |].
  exact (proj2 (proj2 (proj2 (createCategoryDistribution_totals _ [] _ Hnd)))).
Defined.
